(** * line_chart_v2: the chart controller and its host component

    A shallow embedding of
    - [tensorboard/webapp/widgets/line_chart_v2/lib/chart.ts] (class [Chart]),
    - [tensorboard/webapp/widgets/line_chart_v2/lib/chart_types.ts],
    - [line_chart_component.ts] (class [LineChartComponent]),
    with the redraw scheduling, the metadata merge, the construction switch
    and the view-extent bookkeeping followed statement by statement.

    JavaScript numbers are IEEE-754 doubles: they are primitive floats here,
    [===] on numbers is [PrimFloat.eqb] (so NaN differs from itself) and
    [-] is [PrimFloat.sub].  Objects used as dictionaries are [gmap string]:
    a lookup reads the entries of the object's own.  The names under which
    [obj[id]] finds a member inherited from [Object.prototype] instead are
    listed in [Chart.objectPrototypeNames], and the statements that depend
    on the difference say so. *)

From Stdlib Require Import Floats.
From stdpp Require Import gmap strings list fin_maps.

Set Default Proof Using "Type".

(** ** Numbers and plain data (internal_types.ts) *)

Abbreviation number := float (only parsing).

(** [a === b] and [a !== b] on numbers. *)
Definition strictEq (a b : number) : bool := PrimFloat.eqb a b.
Definition strictNeq (a b : number) : bool := negb (strictEq a b).

Module Point.
Record t := mk { x : number; y : number }.
End Point.

Module DataSeries.
Record t := mk { id : string; points : list Point.t }.
End DataSeries.

Module DataSeriesMetadata.
Record t := mk {
  id : string;
  displayName : string;
  visible : bool;
  color : string;
  opacity : number;
}.
End DataSeriesMetadata.

Abbreviation DataSeriesMetadataMap :=
  (gmap string DataSeriesMetadata.t) (only parsing).

Module Extent.
Record t := mk { x : number * number; y : number * number }.
End Extent.

Module Dimension.
Record t := mk { width : number; height : number }.
End Dimension.

Module Rect.
Record t := mk { x : number; y : number; width : number; height : number }.

(** The rectangle [Chart.resize] builds three times, twice as
    [{x: 0, y: 0, ...dim}] and once as [{...dim, x: 0, y: 0}]; a [Dimension]
    has neither [x] nor [y], so the two literals are the same rectangle. *)
Definition ofDimension (dim : Dimension.t) : t :=
  {| x := 0; y := 0;
     width := Dimension.width dim; height := Dimension.height dim |}.

(** [{x: extent.x[0], width: extent.x[1] - extent.x[0], y: extent.y[0],
    height: extent.y[1] - extent.y[0]}], as built in [Chart.updateViewBox]. *)
Definition ofExtent (extent : Extent.t) : t :=
  {| x := (Extent.x extent).1;
     width := PrimFloat.sub (Extent.x extent).2 (Extent.x extent).1;
     y := (Extent.y extent).1;
     height := PrimFloat.sub (Extent.y extent).2 (Extent.y extent).1 |}.
End Rect.

Inductive ScaleType := LINEAR | LOG10.

Inductive RendererType := SVG | WEBGL.

#[global] Instance RendererType_eq_dec : EqDecision RendererType.
Proof. solve_decision. Defined.

(** A DOM handle ([SVGElement], [HTMLCanvasElement] or [OffscreenCanvas]). *)
Definition Container := nat.

(** ** Collaborators of the chart

    [scale.ts], [coordinator.ts], [renderer.ts] and [series_line_view.ts] are
    used by [chart.ts] but are not part of the files verified here. *)

(** Modelled from the spec: [createScale] of the absent [scale.ts]; a Scale is
    a stateless transform object, one per axis, selected by the scale-type
    enum. *)
Record Scale := { scaleType : ScaleType }.

Definition createScale (type : ScaleType) : Scale := {| scaleType := type |}.

Module Coordinator.
(** [Coordinator] or its subclass [ThreeCoordinator]. *)
Inductive Class := Base | Three.

(** Modelled from the spec: the absent [coordinator.ts]; its state is the
    device rect, the view-box rect and one scale per axis, each of them
    unset until its setter is called, and the setters replace state. *)
Record t := mk {
  class : Class;
  xScale : option Scale;
  yScale : option Scale;
  domContainerRect : option Rect.t;
  viewBoxRect : option Rect.t;
}.

Definition new (k : Class) : t := mk k None None None None.

Definition setXScale (s : Scale) (c : t) : t :=
  mk (class c) (Some s) (yScale c) (domContainerRect c) (viewBoxRect c).

Definition setYScale (s : Scale) (c : t) : t :=
  mk (class c) (xScale c) (Some s) (domContainerRect c) (viewBoxRect c).

Definition setDomContainerRect (r : Rect.t) (c : t) : t :=
  mk (class c) (xScale c) (yScale c) (Some r) (viewBoxRect c).

Definition setViewBoxRect (r : Rect.t) (c : t) : t :=
  mk (class c) (xScale c) (yScale c) (domContainerRect c) (Some r).
End Coordinator.

(** One drawable polyline.  Its pixel positions are a function of the points
    and of the coordinator consulted at draw time, so both are kept. *)
Record Primitive := {
  seriesId : string;
  geometry : list Point.t;
  mapping : Coordinator.t;
  stroke : string;
  alpha : number;
}.

Module Renderer.
(** [SvgRenderer(container)] or
    [ThreeRenderer(container, coordinator, devicePixelRatio)]; the
    coordinator handed to the latter is the chart's own object. *)
Inductive Backend :=
| Svg (container : Container)
| Three (container : Container) (devicePixelRatio : number).

(** Modelled from the spec: the absent [renderer.ts]; [onResize] allocates
    the backend surface for a rect, the renderer accepts a batch of
    primitives for the current frame, and [flush] commits the batch to the
    visible surface.  [surface] and [screen] are the backend resources the
    renderer owns. *)
Record t := mk {
  backend : Backend;
  surface : option Rect.t;
  batch : list Primitive;
  screen : list Primitive;
}.

Definition new (b : Backend) : t := mk b None [] [].

Definition onResize (r : Rect.t) (rd : t) : t :=
  mk (backend rd) (Some r) (batch rd) (screen rd).

Definition submit (ps : list Primitive) (rd : t) : t :=
  mk (backend rd) (surface rd) (batch rd ++ ps) (screen rd).

Definition flush (rd : t) : t :=
  mk (backend rd) (surface rd) [] (batch rd).

(** The renderer owns no backend resource. *)
Definition released (rd : t) : bool :=
  match surface rd, screen rd with
  | None, [] => true
  | _, _ => false
  end.
End Renderer.

Module SeriesLineView.
(** Modelled from the spec: the absent [series_line_view.ts].  The
    [renderer], [coordinator] and [getMetadataMap] it is constructed with
    are references to the chart's own objects; the chart passes them at
    every draw.  A frame resubmits every visible series; the per-series
    change detection that only saves work is not represented, the global
    paint-dirty flag is. *)
Record t := mk {
  data : list DataSeries.t;
  paintDirty : bool;
  layoutRect : option Rect.t;
}.

Definition new : t := mk [] false None.

Definition setData (d : list DataSeries.t) (v : t) : t :=
  mk d (paintDirty v) (layoutRect v).

Definition markAsPaintDirty (v : t) : t :=
  mk (data v) true (layoutRect v).

Definition setLayoutRect (r : Rect.t) (v : t) : t :=
  mk (data v) (paintDirty v) (Some r).

(** A series is drawn when its metadata entry exists and is visible; a
    series without an entry is treated as not visible. *)
Definition primitiveOf (coordinator : Coordinator.t)
    (metadataMap : DataSeriesMetadataMap) (s : DataSeries.t)
    : option Primitive :=
  match metadataMap !! DataSeries.id s with
  | Some md =>
      if DataSeriesMetadata.visible md
      then Some {| seriesId := DataSeries.id s;
                   geometry := DataSeries.points s;
                   mapping := coordinator;
                   stroke := DataSeriesMetadata.color md;
                   alpha := DataSeriesMetadata.opacity md |}
      else None
  | None => None
  end.

Definition frame (coordinator : Coordinator.t)
    (metadataMap : DataSeriesMetadataMap) (v : t) : list Primitive :=
  omap (primitiveOf coordinator metadataMap) (data v).

Definition internalOnlyDrawFrame (coordinator : Coordinator.t)
    (metadataMap : DataSeriesMetadataMap) (rd : Renderer.t) (v : t)
    : Renderer.t * t :=
  (Renderer.submit (frame coordinator metadataMap v) rd,
   mk (data v) false (layoutRect v)).
End SeriesLineView.

(** ** chart_types.ts *)

(** The seven operations of [IChart], as first-order calls. *)
Inductive Op :=
| Resize (dim : Dimension.t)
| UpdateMetadata (metadataMap : DataSeriesMetadataMap)
| UpdateViewBox (extent : Extent.t)
| UpdateData (data : list DataSeries.t)
| SetXScaleType (type : ScaleType)
| SetYScaleType (type : ScaleType)
| Dispose.

(** [ChartCallbacks].  What a host callback can do to the chart is call its
    public operations, so [onDrawEnd] is the script of calls it makes; the
    callback of [LineChartComponent], [() => {}], is the empty script.  The
    callback is taken to return: one that throws is not described. *)
Record ChartCallbacks := { onDrawEnd : list Op }.

(** The value found in [option.type] at run time.  The type [ChartOption] is
    the union of [SvgChartOption] and [WebGlChartOption], so typed callers
    pass a member of [RendererType]; [Unrecognized] is any other value. *)
Inductive TypeValue :=
| Recognized (type : RendererType)
| Unrecognized (raw : Z).

(** [BaseChartOption] with the fields of both variants; [devicePixelRatio]
    is read for [WEBGL] only. *)
Module ChartOption.
Record t := mk {
  type : TypeValue;
  container : Container;
  devicePixelRatio : number;
  callbacks : ChartCallbacks;
  domDimension : Dimension.t;
  xScaleType : ScaleType;
  yScaleType : ScaleType;
}.
End ChartOption.

(** ** Errors *)

Inductive Error := TypeError (what : string).

Inductive Result (A : Type) :=
| Ok (a : A)
| Throw (e : Error).
Arguments Ok {A} a.
Arguments Throw {A} e.

Definition bind {A B} (r : Result A) (k : A -> Result B) : Result B :=
  match r with
  | Ok a => k a
  | Throw e => Throw e
  end.

Notation "x <- r ;; k" := (bind r (fun x => k))
  (at level 100, r at next level, right associativity).

(** Reading a property of a field that was never assigned. *)
Definition deref {A} (field : string) (v : option A) : Result A :=
  match v with
  | Some a => Ok a
  | None => Throw (TypeError field)
  end.

(** ** chart.ts *)

(** What the outside observes of a chart: the frames the renderer commits and
    the invocations of [callbacks.onDrawEnd]. *)
Inductive Event :=
| FrameCommitted (primitives : list Primitive)
| DrawEnd.

Module Chart.
Record t := mk {
  renderer : Renderer.t;
  seriesLineView : SeriesLineView.t;
  coordinator : Coordinator.t;
  metadataMap : DataSeriesMetadataMap;
  callbacks : ChartCallbacks;
  shouldRedraw : bool;
}.

(** A chart together with the part of the environment it acts on:
    [frameRequests] counts the callbacks this chart has handed to
    [util.requestAnimationFrame] that have not run yet. *)
Record State := mkState {
  this : t;
  frameRequests : nat;
  trace : list Event;
}.

Definition setRenderer (rd : Renderer.t) (c : t) : t :=
  mk rd (seriesLineView c) (coordinator c) (metadataMap c) (callbacks c)
     (shouldRedraw c).

Definition setSeriesLineView (v : SeriesLineView.t) (c : t) : t :=
  mk (renderer c) v (coordinator c) (metadataMap c) (callbacks c)
     (shouldRedraw c).

Definition setCoordinator (co : Coordinator.t) (c : t) : t :=
  mk (renderer c) (seriesLineView c) co (metadataMap c) (callbacks c)
     (shouldRedraw c).

Definition setMetadataMap (m : DataSeriesMetadataMap) (c : t) : t :=
  mk (renderer c) (seriesLineView c) (coordinator c) m (callbacks c)
     (shouldRedraw c).

Definition setShouldRedraw (b : bool) (c : t) : t :=
  mk (renderer c) (seriesLineView c) (coordinator c) (metadataMap c)
     (callbacks c) b.

Definition onThis (f : t -> t) (s : State) : State :=
  mkState (f (this s)) (frameRequests s) (trace s).

Definition emit (e : Event) (s : State) : State :=
  mkState (this s) (frameRequests s) (trace s ++ [e]).

(** [private scheduleRedraw()] *)
Definition scheduleRedraw (s : State) : State :=
  if shouldRedraw (this s) then s
  else mkState (setShouldRedraw true (this s)) (S (frameRequests s))
               (trace s).

(** [dispose(): void {}] *)
Definition dispose (s : State) : State := s.

Definition setXScaleType (type : ScaleType) (s : State) : State :=
  onThis (fun c =>
    setCoordinator (Coordinator.setXScale (createScale type) (coordinator c)) c) s.

Definition setYScaleType (type : ScaleType) (s : State) : State :=
  onThis (fun c =>
    setCoordinator (Coordinator.setYScale (createScale type) (coordinator c)) c) s.

Definition resize (dim : Dimension.t) (s : State) : State :=
  let s := onThis (fun c =>
    setCoordinator
      (Coordinator.setDomContainerRect (Rect.ofDimension dim) (coordinator c)) c) s in
  let s := onThis (fun c =>
    setRenderer (Renderer.onResize (Rect.ofDimension dim) (renderer c)) c) s in
  let s := onThis (fun c =>
    setSeriesLineView
      (SeriesLineView.setLayoutRect (Rect.ofDimension dim) (seriesLineView c)) c) s in
  scheduleRedraw s.

(** The condition of the [if] inside the [forEach] of [updateMetadata]. *)
Definition entryNeedsRepaint (existing : option DataSeriesMetadata.t)
    (metadata : DataSeriesMetadata.t) : bool :=
  match existing with
  | None => true
  | Some existing =>
      bool_decide (DataSeriesMetadata.color metadata
                   ≠ DataSeriesMetadata.color existing)
      || bool_decide (DataSeriesMetadata.visible metadata
                      ≠ DataSeriesMetadata.visible existing)
      || strictNeq (DataSeriesMetadata.opacity metadata)
                   (DataSeriesMetadata.opacity existing)
  end.

(** One iteration of the [forEach]: the state threaded through is the
    local [shouldRepaint] and [this.metadataMap]. *)
Definition mergeEntry (acc : bool * DataSeriesMetadataMap)
    (entry : string * DataSeriesMetadata.t) : bool * DataSeriesMetadataMap :=
  let existing := acc.2 !! entry.1 in
  (if entryNeedsRepaint existing entry.2 then true else acc.1,
   <[entry.1 := entry.2]> acc.2).

Definition updateMetadata (metadataMap' : DataSeriesMetadataMap)
    (s : State) : State :=
  let r := foldl mergeEntry (false, metadataMap (this s))
                 (map_to_list metadataMap') in
  let s := onThis (setMetadataMap r.2) s in
  let s := if r.1
           then onThis (fun c =>
                  setSeriesLineView
                    (SeriesLineView.markAsPaintDirty (seriesLineView c)) c) s
           else s in
  scheduleRedraw s.

Definition updateViewBox (extent : Extent.t) (s : State) : State :=
  let s := onThis (fun c =>
    setCoordinator
      (Coordinator.setViewBoxRect (Rect.ofExtent extent) (coordinator c)) c) s in
  let s := onThis (fun c =>
    setSeriesLineView
      (SeriesLineView.markAsPaintDirty (seriesLineView c)) c) s in
  scheduleRedraw s.

Definition updateData (data : list DataSeries.t) (s : State) : State :=
  let s := onThis (fun c =>
    setSeriesLineView (SeriesLineView.setData data (seriesLineView c)) c) s in
  scheduleRedraw s.

(** A call made on the chart through [IChart]. *)
Definition call (op : Op) (s : State) : State :=
  match op with
  | Resize dim => resize dim s
  | UpdateMetadata m => updateMetadata m s
  | UpdateViewBox extent => updateViewBox extent s
  | UpdateData data => updateData data s
  | SetXScaleType type => setXScaleType type s
  | SetYScaleType type => setYScaleType type s
  | Dispose => dispose s
  end.

Definition calls (ops : list Op) (s : State) : State :=
  foldl (fun s op => call op s) s ops.

(** The frame a draw produces from the current inputs. *)
Definition currentFrame (c : t) : list Primitive :=
  SeriesLineView.frame (coordinator c) (metadataMap c) (seriesLineView c).

(** [private redraw()] *)
Definition redraw (s : State) : State :=
  let c := this s in
  let drawn :=
    SeriesLineView.internalOnlyDrawFrame
      (coordinator c) (metadataMap c) (renderer c) (seriesLineView c) in
  let rd := Renderer.flush drawn.1 in
  let s := onThis (fun c => setSeriesLineView drawn.2 (setRenderer rd c)) s in
  let s := emit (FrameCommitted (Renderer.screen rd)) s in
  let s := emit DrawEnd s in
  calls (onDrawEnd (callbacks c)) s.

(** The arrow function handed to [util.requestAnimationFrame]. *)
Definition frameCallback (s : State) : State :=
  onThis (setShouldRedraw false) (redraw s).

(** One animation frame of the host: the callbacks requested before the
    frame run, those requested while it runs wait for the next one. *)
Definition animationFrame (s : State) : State :=
  Nat.iter (frameRequests s) frameCallback
           (mkState (this s) 0 (trace s)).

(** [constructor(option: ChartOption)].  The [switch] has no default: for
    a value that is neither [SVG] nor [WEBGL] both fields stay unassigned
    and their first use, [this.coordinator.setXScale] inside
    [setXScaleType], throws.  The two fields are assigned together, so
    both are read here, before the calls that use them. *)
Definition new (option : ChartOption.t) : Result State :=
  let selected :=
    match ChartOption.type option with
    | Recognized SVG =>
        (Some (Coordinator.new Coordinator.Base),
         Some (Renderer.new (Renderer.Svg (ChartOption.container option))))
    | Recognized WEBGL =>
        (Some (Coordinator.new Coordinator.Three),
         Some (Renderer.new
                 (Renderer.Three (ChartOption.container option)
                                 (ChartOption.devicePixelRatio option))))
    | Unrecognized _ => (None, None)
    end in
  co <- deref "coordinator" selected.1 ;;
  rd <- deref "renderer" selected.2 ;;
  let c := mk rd SeriesLineView.new co ∅ (ChartOption.callbacks option)
              false in
  let s := mkState c 0 [] in
  let s := setXScaleType (ChartOption.xScaleType option) s in
  let s := setYScaleType (ChartOption.yScaleType option) s in
  Ok (resize (ChartOption.domDimension option) s).

(** [this.metadataMap] starts as the literal [{}], whose prototype is
    [Object.prototype]: [this.metadataMap[id]] with one of these names reads
    the inherited member, a function or, for [__proto__], the prototype
    itself, when the map has no entry of its own under the name. *)
Definition objectPrototypeNames : list string :=
  ["constructor"; "hasOwnProperty"; "isPrototypeOf"; "propertyIsEnumerable";
   "toLocaleString"; "toString"; "valueOf"; "__defineGetter__";
   "__defineSetter__"; "__lookupGetter__"; "__lookupSetter__"; "__proto__"].

(** [updateMetadata] on an object some of whose values are [undefined]; the
    type [DataSeriesMetadataMap] excludes them, [LineChartComponent.updateProp]
    passes them all the same.  With [metadata] undefined the test of the
    [if] stops at [!existing] when [this.metadataMap[id]] is [undefined], and
    throws on [metadata.color] when it is an entry or a member inherited
    from [Object.prototype].  A key assigned [undefined] reads like an absent
    key everywhere in chart.ts, so it stays absent.  An entry stored under
    [__proto__] would replace the prototype of the map; the statements on
    undefined values exclude it. *)
Definition mergeEntryRaw (acc : bool * DataSeriesMetadataMap)
    (entry : string * option DataSeriesMetadata.t)
    : Result (bool * DataSeriesMetadataMap) :=
  let existing := acc.2 !! entry.1 in
  match entry.2 with
  | Some metadata =>
      Ok (if entryNeedsRepaint existing metadata then true else acc.1,
          <[entry.1 := metadata]> acc.2)
  | None =>
      match existing with
      | None =>
          if bool_decide (entry.1 ∈ objectPrototypeNames)
          then Throw (TypeError "metadata")
          else Ok (true, acc.2)
      | Some _ => Throw (TypeError "metadata")
      end
  end.

(** [forEach] with a callback that may throw: the first throw ends it. *)
Fixpoint forEachRaw (acc : bool * DataSeriesMetadataMap)
    (entries : list (string * option DataSeriesMetadata.t))
    : Result (bool * DataSeriesMetadataMap) :=
  match entries with
  | [] => Ok acc
  | entry :: entries =>
      acc <- mergeEntryRaw acc entry ;; forEachRaw acc entries
  end.

(** The exception leaves the method before [markAsPaintDirty] and
    [scheduleRedraw]; what the chart holds then depends on the order of the
    entries and is not described. *)
Definition updateMetadataRaw
    (metadataMap' : gmap string (option DataSeriesMetadata.t))
    (s : State) : Result State :=
  r <- forEachRaw (false, metadataMap (this s)) (map_to_list metadataMap') ;;
  let s := onThis (setMetadataMap r.2) s in
  let s := if r.1
           then onThis (fun c =>
                  setSeriesLineView
                    (SeriesLineView.markAsPaintDirty (seriesLineView c)) c) s
           else s in
  Ok (scheduleRedraw s).

(** What happens between the construction of a chart and now: calls and
    animation frames, in any order. *)
Inductive Step :=
| Called (op : Op)
| Frame.

Definition step (st : Step) (s : State) : State :=
  match st with
  | Called op => call op s
  | Frame => animationFrame s
  end.

Definition run (steps : list Step) (s : State) : State :=
  foldl (fun s st => step st s) s steps.
End Chart.

(** ** line_chart_component.ts *)

(** The functions and browser facts [LineChartComponent] imports from
    modules that are not part of the files verified here: [Scale.niceDomain]
    (lib/scale), [areExtentsEqual], [isWebGl2Supported] and
    [isOffscreenCanvasSupported] (lib/utils), [computeDataSeriesExtent] and
    [getRendererType] (line_chart_internal_utils), and what the DOM
    answers.  Every statement about the component holds for any of them. *)
Class Imports := {
  niceDomain : Scale -> number * number -> number * number;
  areExtentsEqual : Extent.t -> Extent.t -> bool;
  computeDataSeriesExtent :
    list DataSeries.t -> DataSeriesMetadataMap -> Extent.t;
  getRendererType : RendererType -> RendererType;
  isWebGl2Supported : bool;
  isOffscreenCanvasSupported : bool;
  chartEl : Container;
  clientMain : Dimension.t;
  clientXAxis : Dimension.t;
  clientYAxis : Dimension.t;
  windowDevicePixelRatio : number;
}.

Definition DEFAULT_EXTENT : Extent.t :=
  {| Extent.x := (0%float, 1%float); Extent.y := (0%float, 1%float) |}.

Record DomDimensions := {
  main : Dimension.t;
  yAxis : Dimension.t;
  xAxis : Dimension.t;
}.

(** [Chart] or [WorkerChart], the two implementations of [IChart]. *)
Inductive ChartClass := InProcessChart | WorkerChart.

(** A call the component makes on its [IChart].  The metadata object built
    in [updateProp] holds [this.seriesMetadataMap[id]] for every series id,
    which is [undefined] for an id the map lacks. *)
Inductive Call :=
| CallResize (dim : Dimension.t)
| CallUpdateMetadata (metadata : gmap string (option DataSeriesMetadata.t))
| CallUpdateViewBox (extent : Extent.t)
| CallUpdateData (data : list DataSeries.t)
| CallSetXScaleType (type : ScaleType)
| CallSetYScaleType (type : ScaleType)
| CallDispose.

(** The component sees its chart through [IChart] only and cannot tell the
    two classes apart, so [this.lineChart] is the class and option it was
    constructed with and the calls made on it so far, oldest first. *)
Record Handle := {
  klass : ChartClass;
  params : ChartOption.t;
  received : list Call;
}.

Definition send (call : Call) (h : Handle) : Handle :=
  {| klass := klass h; params := params h; received := received h ++ [call] |}.

(** Angular's [SimpleChanges]: which inputs changed, and for
    [seriesMetadataMap] the [previousValue] of the change as well
    ([undefined] at the first binding). *)
Module SimpleChanges.
Record t := mk {
  xScaleType : bool;
  yScaleType : bool;
  seriesData : bool;
  defaultViewExtent : bool;
  seriesMetadataMap : option (option DataSeriesMetadataMap);
}.

Definition none : t := mk false false false false None.
End SimpleChanges.

Module LineChartComponent.
Record t := mk {
  preferredRendererType : RendererType;
  seriesData : list DataSeries.t;
  defaultViewExtent : option Extent.t;
  seriesMetadataMap : DataSeriesMetadataMap;
  forceUseWorkerIfCanvas : bool;
  xScaleType : ScaleType;
  yScaleType : ScaleType;
  xScale : Scale;
  yScale : Scale;
  viewExtent : Extent.t;
  domDimensions : DomDimensions;
  lineChart : option Handle;
  dataExtent : option Extent.t;
  isDataUpdated : bool;
  isMetadataUpdated : bool;
  isViewExtentUpdated : bool;
  isDefaultViewExtentUpdated : bool;
  maybeSetViewExtentToDefault : bool;
}.

(** Field updates: [set_f v c] is [c] after [this.f = v]. *)
Definition set_seriesData (v : list DataSeries.t) (c : t) : t :=
  mk (preferredRendererType c) v (defaultViewExtent c) (seriesMetadataMap c)
     (forceUseWorkerIfCanvas c) (xScaleType c) (yScaleType c) (xScale c)
     (yScale c) (viewExtent c) (domDimensions c) (lineChart c)
     (dataExtent c) (isDataUpdated c) (isMetadataUpdated c)
     (isViewExtentUpdated c) (isDefaultViewExtentUpdated c)
     (maybeSetViewExtentToDefault c).

Definition set_defaultViewExtent (v : option Extent.t) (c : t) : t :=
  mk (preferredRendererType c) (seriesData c) v (seriesMetadataMap c)
     (forceUseWorkerIfCanvas c) (xScaleType c) (yScaleType c) (xScale c)
     (yScale c) (viewExtent c) (domDimensions c) (lineChart c)
     (dataExtent c) (isDataUpdated c) (isMetadataUpdated c)
     (isViewExtentUpdated c) (isDefaultViewExtentUpdated c)
     (maybeSetViewExtentToDefault c).

Definition set_seriesMetadataMap (v : DataSeriesMetadataMap) (c : t) : t :=
  mk (preferredRendererType c) (seriesData c) (defaultViewExtent c) v
     (forceUseWorkerIfCanvas c) (xScaleType c) (yScaleType c) (xScale c)
     (yScale c) (viewExtent c) (domDimensions c) (lineChart c)
     (dataExtent c) (isDataUpdated c) (isMetadataUpdated c)
     (isViewExtentUpdated c) (isDefaultViewExtentUpdated c)
     (maybeSetViewExtentToDefault c).

Definition set_xScaleType (v : ScaleType) (c : t) : t :=
  mk (preferredRendererType c) (seriesData c) (defaultViewExtent c)
     (seriesMetadataMap c) (forceUseWorkerIfCanvas c) v (yScaleType c)
     (xScale c) (yScale c) (viewExtent c) (domDimensions c) (lineChart c)
     (dataExtent c) (isDataUpdated c) (isMetadataUpdated c)
     (isViewExtentUpdated c) (isDefaultViewExtentUpdated c)
     (maybeSetViewExtentToDefault c).

Definition set_yScaleType (v : ScaleType) (c : t) : t :=
  mk (preferredRendererType c) (seriesData c) (defaultViewExtent c)
     (seriesMetadataMap c) (forceUseWorkerIfCanvas c) (xScaleType c) v
     (xScale c) (yScale c) (viewExtent c) (domDimensions c) (lineChart c)
     (dataExtent c) (isDataUpdated c) (isMetadataUpdated c)
     (isViewExtentUpdated c) (isDefaultViewExtentUpdated c)
     (maybeSetViewExtentToDefault c).

Definition set_xScale (v : Scale) (c : t) : t :=
  mk (preferredRendererType c) (seriesData c) (defaultViewExtent c)
     (seriesMetadataMap c) (forceUseWorkerIfCanvas c) (xScaleType c)
     (yScaleType c) v (yScale c) (viewExtent c) (domDimensions c)
     (lineChart c) (dataExtent c) (isDataUpdated c) (isMetadataUpdated c)
     (isViewExtentUpdated c) (isDefaultViewExtentUpdated c)
     (maybeSetViewExtentToDefault c).

Definition set_yScale (v : Scale) (c : t) : t :=
  mk (preferredRendererType c) (seriesData c) (defaultViewExtent c)
     (seriesMetadataMap c) (forceUseWorkerIfCanvas c) (xScaleType c)
     (yScaleType c) (xScale c) v (viewExtent c) (domDimensions c)
     (lineChart c) (dataExtent c) (isDataUpdated c) (isMetadataUpdated c)
     (isViewExtentUpdated c) (isDefaultViewExtentUpdated c)
     (maybeSetViewExtentToDefault c).

Definition set_viewExtent (v : Extent.t) (c : t) : t :=
  mk (preferredRendererType c) (seriesData c) (defaultViewExtent c)
     (seriesMetadataMap c) (forceUseWorkerIfCanvas c) (xScaleType c)
     (yScaleType c) (xScale c) (yScale c) v (domDimensions c) (lineChart c)
     (dataExtent c) (isDataUpdated c) (isMetadataUpdated c)
     (isViewExtentUpdated c) (isDefaultViewExtentUpdated c)
     (maybeSetViewExtentToDefault c).

Definition set_domDimensions (v : DomDimensions) (c : t) : t :=
  mk (preferredRendererType c) (seriesData c) (defaultViewExtent c)
     (seriesMetadataMap c) (forceUseWorkerIfCanvas c) (xScaleType c)
     (yScaleType c) (xScale c) (yScale c) (viewExtent c) v (lineChart c)
     (dataExtent c) (isDataUpdated c) (isMetadataUpdated c)
     (isViewExtentUpdated c) (isDefaultViewExtentUpdated c)
     (maybeSetViewExtentToDefault c).

Definition set_lineChart (v : option Handle) (c : t) : t :=
  mk (preferredRendererType c) (seriesData c) (defaultViewExtent c)
     (seriesMetadataMap c) (forceUseWorkerIfCanvas c) (xScaleType c)
     (yScaleType c) (xScale c) (yScale c) (viewExtent c) (domDimensions c) v
     (dataExtent c) (isDataUpdated c) (isMetadataUpdated c)
     (isViewExtentUpdated c) (isDefaultViewExtentUpdated c)
     (maybeSetViewExtentToDefault c).

Definition set_dataExtent (v : option Extent.t) (c : t) : t :=
  mk (preferredRendererType c) (seriesData c) (defaultViewExtent c)
     (seriesMetadataMap c) (forceUseWorkerIfCanvas c) (xScaleType c)
     (yScaleType c) (xScale c) (yScale c) (viewExtent c) (domDimensions c)
     (lineChart c) v (isDataUpdated c) (isMetadataUpdated c)
     (isViewExtentUpdated c) (isDefaultViewExtentUpdated c)
     (maybeSetViewExtentToDefault c).

Definition set_isDataUpdated (v : bool) (c : t) : t :=
  mk (preferredRendererType c) (seriesData c) (defaultViewExtent c)
     (seriesMetadataMap c) (forceUseWorkerIfCanvas c) (xScaleType c)
     (yScaleType c) (xScale c) (yScale c) (viewExtent c) (domDimensions c)
     (lineChart c) (dataExtent c) v (isMetadataUpdated c)
     (isViewExtentUpdated c) (isDefaultViewExtentUpdated c)
     (maybeSetViewExtentToDefault c).

Definition set_isMetadataUpdated (v : bool) (c : t) : t :=
  mk (preferredRendererType c) (seriesData c) (defaultViewExtent c)
     (seriesMetadataMap c) (forceUseWorkerIfCanvas c) (xScaleType c)
     (yScaleType c) (xScale c) (yScale c) (viewExtent c) (domDimensions c)
     (lineChart c) (dataExtent c) (isDataUpdated c) v
     (isViewExtentUpdated c) (isDefaultViewExtentUpdated c)
     (maybeSetViewExtentToDefault c).

Definition set_isViewExtentUpdated (v : bool) (c : t) : t :=
  mk (preferredRendererType c) (seriesData c) (defaultViewExtent c)
     (seriesMetadataMap c) (forceUseWorkerIfCanvas c) (xScaleType c)
     (yScaleType c) (xScale c) (yScale c) (viewExtent c) (domDimensions c)
     (lineChart c) (dataExtent c) (isDataUpdated c) (isMetadataUpdated c) v
     (isDefaultViewExtentUpdated c) (maybeSetViewExtentToDefault c).

Definition set_isDefaultViewExtentUpdated (v : bool) (c : t) : t :=
  mk (preferredRendererType c) (seriesData c) (defaultViewExtent c)
     (seriesMetadataMap c) (forceUseWorkerIfCanvas c) (xScaleType c)
     (yScaleType c) (xScale c) (yScale c) (viewExtent c) (domDimensions c)
     (lineChart c) (dataExtent c) (isDataUpdated c) (isMetadataUpdated c)
     (isViewExtentUpdated c) v (maybeSetViewExtentToDefault c).

Definition set_maybeSetViewExtentToDefault (v : bool) (c : t) : t :=
  mk (preferredRendererType c) (seriesData c) (defaultViewExtent c)
     (seriesMetadataMap c) (forceUseWorkerIfCanvas c) (xScaleType c)
     (yScaleType c) (xScale c) (yScale c) (viewExtent c) (domDimensions c)
     (lineChart c) (dataExtent c) (isDataUpdated c) (isMetadataUpdated c)
     (isViewExtentUpdated c) (isDefaultViewExtentUpdated c) v.

(** The field initialisers, with the two inputs declared [!] given.  The
    initialiser of [yScale] reads [this.xScaleType], as the source does. *)
Definition new `{Imports} (seriesData : list DataSeries.t)
    (seriesMetadataMap : DataSeriesMetadataMap) : t :=
  let xScaleType := LINEAR in
  let yScaleType := LINEAR in
  {| preferredRendererType := if isWebGl2Supported then WEBGL else SVG;
     seriesData := seriesData;
     defaultViewExtent := None;
     seriesMetadataMap := seriesMetadataMap;
     forceUseWorkerIfCanvas := false;
     xScaleType := xScaleType;
     yScaleType := yScaleType;
     xScale := createScale xScaleType;
     yScale := createScale xScaleType;
     viewExtent := DEFAULT_EXTENT;
     domDimensions :=
       {| main := Dimension.mk 0 0; xAxis := Dimension.mk 0 0;
          yAxis := Dimension.mk 0 0 |};
     lineChart := None;
     dataExtent := None;
     isDataUpdated := false;
     isMetadataUpdated := false;
     isViewExtentUpdated := true;
     isDefaultViewExtentUpdated := false;
     maybeSetViewExtentToDefault := true |}.

(** [this.lineChart.m(...)] behind an [if (this.lineChart)] guard.  The
    call is recorded and taken to return.  Of the calls the component makes,
    [Chart.updateMetadata] is the one that can throw, on an undefined value
    ([Chart.updateMetadataRaw]); nothing in the component catches it, so the
    hook ends there.  The statements on what a hook does after that call
    are made for components whose metadata covers their data
    ([ComponentProps.covered]), where it returns. *)
Definition tell (call : Call) (c : t) : t :=
  match lineChart c with
  | Some h => set_lineChart (Some (send call h)) c
  | None => c
  end.

Definition getDefaultViewExtent `{Imports} (c : t) : Extent.t :=
  match defaultViewExtent c with
  | Some extent => extent
  | None =>
      match dataExtent c with
      | None => DEFAULT_EXTENT
      | Some dataExtent =>
          {| Extent.x := niceDomain (xScale c) (Extent.x dataExtent);
             Extent.y := niceDomain (yScale c) (Extent.y dataExtent) |}
      end
  end.

(** The test of the [for] loop in [shouldResetViewExtent]. *)
Definition entryResetsViewExtent (prevMetadataMap : option DataSeriesMetadataMap)
    (entry : string * DataSeriesMetadata.t) : bool :=
  match prevMetadataMap ≫= (.!! entry.1) with
  | None => true
  | Some prevMetadata =>
      bool_decide (DataSeriesMetadata.visible entry.2
                   ≠ DataSeriesMetadata.visible prevMetadata)
  end.

Definition shouldResetViewExtent `{Imports} (changes : SimpleChanges.t)
    (c : t) : bool :=
  if SimpleChanges.xScaleType changes || SimpleChanges.yScaleType changes
  then true
  else
    let prevDefaultExtent := getDefaultViewExtent c in
    let wasViewExtentChanged :=
      negb (areExtentsEqual prevDefaultExtent (viewExtent c)) in
    if wasViewExtentChanged then false
    else if SimpleChanges.seriesData changes then true
    else
      match SimpleChanges.seriesMetadataMap changes with
      | Some prevMetadataMap =>
          existsb (entryResetsViewExtent prevMetadataMap)
                  (map_to_list (seriesMetadataMap c))
      | None => false
      end.

Definition readAndUpdateDomDimensions `{Imports} (c : t) : t :=
  set_domDimensions
    {| main := clientMain; xAxis := clientXAxis; yAxis := clientYAxis |} c.

Definition initializeChart `{Imports} (c : t) : t :=
  match lineChart c with
  | Some _ => c
  | None =>
      let rendererType := getRendererType (preferredRendererType c) in
      let callbacks := {| onDrawEnd := [] |} in
      let c := readAndUpdateDomDimensions c in
      let params :=
        match rendererType with
        | SVG =>
            ChartOption.mk (Recognized SVG) chartEl windowDevicePixelRatio
              callbacks (main (domDimensions c)) (xScaleType c) (yScaleType c)
        | WEBGL =>
            ChartOption.mk (Recognized WEBGL) chartEl windowDevicePixelRatio
              callbacks (main (domDimensions c)) (xScaleType c) (yScaleType c)
        end in
      let useWorker :=
        bool_decide (rendererType ≠ SVG)
        && (forceUseWorkerIfCanvas c || isOffscreenCanvasSupported) in
      let klass := if useWorker then WorkerChart else InProcessChart in
      set_lineChart
        (Some {| klass := klass; params := params; received := [] |}) c
  end.

(** The object [updateProp] fills with [metadata[id] =
    this.seriesMetadataMap[id]] for every series.  The lookup is the one of
    an object's own entries: it is what the source reads for every id that
    is no member name of [Object.prototype]
    ([ComponentProps.plainIds]). *)
Definition requiredMetadata (c : t) : gmap string (option DataSeriesMetadata.t) :=
  foldl (fun metadata s =>
           <[DataSeries.id s := seriesMetadataMap c !! DataSeries.id s]> metadata)
        ∅ (seriesData c).

(** [updateProp()], every call on the chart returning (see [tell]). *)
Definition updateProp `{Imports} (c : t) : t :=
  match lineChart c with
  | None => c
  | Some _ =>
      let c :=
        if isMetadataUpdated c || isDataUpdated c
        then
          let c := set_isMetadataUpdated false c in
          tell (CallUpdateMetadata (requiredMetadata c)) c
        else c in
      let c :=
        if isDataUpdated c
        then
          let c := set_isDataUpdated false c in
          tell (CallUpdateData (seriesData c)) c
        else c in
      let viewExtentChange :=
        isDefaultViewExtentUpdated c || isViewExtentUpdated c
        || maybeSetViewExtentToDefault c in
      let c :=
        match isDefaultViewExtentUpdated c, defaultViewExtent c with
        | true, Some extent => set_viewExtent extent c
        | _, _ =>
            if maybeSetViewExtentToDefault c
            then
              let c :=
                set_dataExtent
                  (Some (computeDataSeriesExtent (seriesData c)
                                                 (seriesMetadataMap c))) c in
              set_viewExtent (getDefaultViewExtent c) c
            else c
        end in
      if viewExtentChange
      then
        let c := set_isDefaultViewExtentUpdated false c in
        let c := set_isViewExtentUpdated false c in
        let c := set_maybeSetViewExtentToDefault false c in
        tell (CallUpdateViewBox (viewExtent c)) c
      else c
  end.

(** [ngOnChanges(changes)]; Angular has assigned the new values of the
    changed inputs to the fields before it calls the hook. *)
Definition ngOnChanges `{Imports} (changes : SimpleChanges.t) (c : t) : t :=
  let c :=
    if SimpleChanges.xScaleType changes
    then
      let c := set_xScale (createScale (xScaleType c)) c in
      tell (CallSetXScaleType (xScaleType c)) c
    else c in
  let c :=
    if SimpleChanges.yScaleType changes
    then
      let c := set_yScale (createScale (yScaleType c)) c in
      tell (CallSetYScaleType (yScaleType c)) c
    else c in
  let c := if SimpleChanges.seriesData changes
           then set_isDataUpdated true c else c in
  let c := if SimpleChanges.defaultViewExtent changes
           then set_isDefaultViewExtentUpdated true c else c in
  let c := match SimpleChanges.seriesMetadataMap changes with
           | Some _ => set_isMetadataUpdated true c
           | None => c
           end in
  let c := set_maybeSetViewExtentToDefault (shouldResetViewExtent changes c) c in
  updateProp c.

Definition ngAfterViewInit `{Imports} (c : t) : t :=
  updateProp (initializeChart c).

Definition ngOnDestroy (c : t) : t := tell CallDispose c.

Definition onViewExtentChanged `{Imports} (viewExtent : Extent.t) (c : t) : t :=
  let c := set_isViewExtentUpdated true c in
  let c := set_viewExtent viewExtent c in
  updateProp c.

Definition onViewExtentReset `{Imports} (c : t) : t :=
  let c := set_maybeSetViewExtentToDefault true c in
  updateProp c.

(** Angular binding new input values and then calling [ngOnChanges] with
    the matching change record. *)
Definition bindSeriesMetadataMap `{Imports} (m : DataSeriesMetadataMap)
    (c : t) : t :=
  ngOnChanges
    (SimpleChanges.mk false false false false (Some (Some (seriesMetadataMap c))))
    (set_seriesMetadataMap m c).

Definition bindSeriesData `{Imports} (d : list DataSeries.t) (c : t) : t :=
  ngOnChanges (SimpleChanges.mk false false true false None)
              (set_seriesData d c).

Definition bindDefaultViewExtent `{Imports} (e : option Extent.t) (c : t) : t :=
  ngOnChanges (SimpleChanges.mk false false false true None)
              (set_defaultViewExtent e c).

Definition bindXScaleType `{Imports} (type : ScaleType) (c : t) : t :=
  ngOnChanges (SimpleChanges.mk true false false false None)
              (set_xScaleType type c).

(** [onViewResize()]; the closing [changeDetector.detectChanges()] re-renders
    the template and touches no field. *)
Definition onViewResize `{Imports} (c : t) : t :=
  match lineChart c with
  | None => c
  | Some _ =>
      let c := readAndUpdateDomDimensions c in
      tell (CallResize (main (domDimensions c))) c
  end.

(** The inputs Angular rebinds in one change-detection pass: [Some v] for an
    input whose value changed to [v]. *)
Record InputChange := {
  newSeriesData : option (list DataSeries.t);
  newSeriesMetadataMap : option DataSeriesMetadataMap;
  newDefaultViewExtent : option (option Extent.t);
  newXScaleType : option ScaleType;
  newYScaleType : option ScaleType;
}.

Definition assign (ic : InputChange) (c : t) : t :=
  let c := from_option (fun v => set_seriesData v c) c (newSeriesData ic) in
  let c := from_option (fun v => set_seriesMetadataMap v c) c
                       (newSeriesMetadataMap ic) in
  let c := from_option (fun v => set_defaultViewExtent v c) c
                       (newDefaultViewExtent ic) in
  let c := from_option (fun v => set_xScaleType v c) c (newXScaleType ic) in
  from_option (fun v => set_yScaleType v c) c (newYScaleType ic).

(** The [SimpleChanges] Angular builds for the pass; the previous value of
    the metadata map is the one the component holds before the pass. *)
Definition changesOf (ic : InputChange) (c : t) : SimpleChanges.t :=
  SimpleChanges.mk
    (bool_decide (is_Some (newXScaleType ic)))
    (bool_decide (is_Some (newYScaleType ic)))
    (bool_decide (is_Some (newSeriesData ic)))
    (bool_decide (is_Some (newDefaultViewExtent ic)))
    (match newSeriesMetadataMap ic with
     | Some _ => Some (Some (seriesMetadataMap c))
     | None => None
     end).

(** What can happen to a component: a binding pass, the lifecycle hooks and
    the events of the template. *)
Inductive Hook :=
| Bound (ic : InputChange)
| AfterViewInit
| ViewExtentChanged (viewExtent : Extent.t)
| ViewExtentReset
| ViewResize
| Destroy.

Definition fire `{Imports} (hook : Hook) (c : t) : t :=
  match hook with
  | Bound ic => ngOnChanges (changesOf ic c) (assign ic c)
  | AfterViewInit => ngAfterViewInit c
  | ViewExtentChanged viewExtent => onViewExtentChanged viewExtent c
  | ViewExtentReset => onViewExtentReset c
  | ViewResize => onViewResize c
  | Destroy => ngOnDestroy c
  end.

Definition fireAll `{Imports} (hooks : list Hook) (c : t) : t :=
  foldl (fun c hook => fire hook c) c hooks.
End LineChartComponent.

(** ** The component driving a [Chart] in the page's own thread *)

Module InProcess.
(** A call of the component arriving at a [Chart]. *)
Definition receive (call : Call) (s : Chart.State) : Result Chart.State :=
  match call with
  | CallResize dim => Ok (Chart.resize dim s)
  | CallUpdateMetadata metadata => Chart.updateMetadataRaw metadata s
  | CallUpdateViewBox extent => Ok (Chart.updateViewBox extent s)
  | CallUpdateData data => Ok (Chart.updateData data s)
  | CallSetXScaleType type => Ok (Chart.setXScaleType type s)
  | CallSetYScaleType type => Ok (Chart.setYScaleType type s)
  | CallDispose => Ok (Chart.dispose s)
  end.

(** The calls of one hook arrive one after the other, until one throws. *)
Fixpoint replay (calls : list Call) (s : Chart.State) : Result Chart.State :=
  match calls with
  | [] => Ok s
  | call :: calls => s <- receive call s ;; replay calls s
  end.
End InProcess.

(** ** Vocabulary of the statements *)

Module ChartProps.
Import Chart.

(** The chart is between two frames: a frame callback is queued exactly when
    the in-flight flag is set, and the renderer holds no half-submitted
    batch.  [Chart.new] establishes it and every call and every animation
    frame keeps it. *)
Definition betweenFrames (s : State) : Prop :=
  frameRequests s = (if shouldRedraw (this s) then 1 else 0)
  ∧ Renderer.batch (renderer (this s)) = [].

(** The operations of the coalescing property. *)
Definition isUpdate (op : Op) : bool :=
  match op with
  | Resize _ | UpdateMetadata _ | UpdateViewBox _ | UpdateData _ => true
  | SetXScaleType _ | SetYScaleType _ | Dispose => false
  end.

(** No call of the list replaces the data, or the view box, or touches the
    metadata map. *)
Definition keepsData (ops : list Op) : bool :=
  forallb (fun op => match op with UpdateData _ => false | _ => true end) ops.



(** Some entry of [metadataMap'] is new to [existing] or differs from its
    prior value in color, visibility or opacity. *)
Definition needsRepaint (metadataMap' existing : DataSeriesMetadataMap) : bool :=
  existsb (fun entry => entryNeedsRepaint (existing !! entry.1) entry.2)
          (map_to_list metadataMap').

(** The frames committed and the callbacks invoked, counted in a trace. *)
Definition isFrameCommitted (e : Event) : bool :=
  match e with FrameCommitted _ => true | DrawEnd => false end.

Definition isDrawEnd (e : Event) : bool :=
  match e with DrawEnd => true | FrameCommitted _ => false end.

Definition framesCommitted (tr : list Event) : nat :=
  length (List.filter isFrameCommitted tr).

Definition drawEnds (tr : list Event) : nat :=
  length (List.filter isDrawEnd tr).

(** The number of animation frames among the steps of a run. *)
Definition frames (steps : list Step) : nat :=
  length (List.filter (fun st => match st with Frame => true | _ => false end)
                      steps).

(** The coordinator, the renderer and the series view hold the same rect,
    with its origin at (0, 0). *)
Definition rectsAgree (s : State) : Prop :=
  ∃ dim,
    Coordinator.domContainerRect (coordinator (this s))
    = Some (Rect.ofDimension dim)
    ∧ Renderer.surface (renderer (this s)) = Some (Rect.ofDimension dim)
    ∧ SeriesLineView.layoutRect (seriesLineView (this s))
      = Some (Rect.ofDimension dim).

(** Which of the seven operations a call is. *)
Definition operation (op : Op) : nat :=
  match op with
  | Resize _ => 0
  | UpdateMetadata _ => 1
  | UpdateViewBox _ => 2
  | UpdateData _ => 3
  | SetXScaleType _ => 4
  | SetYScaleType _ => 5
  | Dispose => 6
  end.

(** An entry [updateMetadata] throws on: its value is [undefined] and the
    chart holds an entry for its id, or its id names a member of
    [Object.prototype]. *)
Definition throwsOn (existing : DataSeriesMetadataMap)
    (entry : string * option DataSeriesMetadata.t) : bool :=
  match entry.2, existing !! entry.1 with
  | None, Some _ => true
  | None, None => bool_decide (entry.1 ∈ objectPrototypeNames)
  | Some _, _ => false
  end.

(** No entry has been stored under [__proto__]: the prototype of the
    object is still [Object.prototype]. *)
Definition prototypeKept {A} (m : gmap string A) : Prop :=
  m !! "__proto__" = None.

(** An entry that sets [shouldRepaint], when nothing throws. *)
Definition rawEntryNeedsRepaint (existing : DataSeriesMetadataMap)
    (entry : string * option DataSeriesMetadata.t) : bool :=
  match entry.2 with
  | Some metadata => entryNeedsRepaint (existing !! entry.1) metadata
  | None => true
  end.

(** The entries whose value is defined. *)
Definition definedEntries (entries : list (string * option DataSeriesMetadata.t))
    : list (string * DataSeriesMetadata.t) :=
  omap (fun entry => (entry.1,.) <$> entry.2) entries.
End ChartProps.

Module ComponentProps.
Import LineChartComponent.

(** The component has a chart and no update is outstanding: the state
    [updateProp] leaves once the chart exists. *)
Definition settled (c : t) : Prop :=
  is_Some (lineChart c)
  ∧ isDataUpdated c = false
  ∧ isMetadataUpdated c = false
  ∧ isViewExtentUpdated c = false
  ∧ isDefaultViewExtentUpdated c = false
  ∧ maybeSetViewExtentToDefault c = false.

(** A metadata change that adds no series and changes no visibility: every
    entry of the new map had an entry with the same [visible] before. *)
Definition keepsVisibility (change : option (option DataSeriesMetadataMap))
    (metadataMap : DataSeriesMetadataMap) : Prop :=
  ∀ prevMetadataMap, change = Some prevMetadataMap ->
    ∀ id metadata, metadataMap !! id = Some metadata ->
      ∃ prevMetadata,
        prevMetadataMap ≫= (.!! id) = Some prevMetadata
        ∧ DataSeriesMetadata.visible metadata
          = DataSeriesMetadata.visible prevMetadata.

(** A metadata change that adds a series or changes a visibility: some
    entry of the new map had no entry before, or one with another
    [visible]. *)
Definition changesVisibility (prevMetadataMap : option DataSeriesMetadataMap)
    (metadataMap : DataSeriesMetadataMap) : Prop :=
  ∃ id metadata,
    metadataMap !! id = Some metadata
    ∧ match prevMetadataMap ≫= (.!! id) with
      | None => True
      | Some prevMetadata =>
          DataSeriesMetadata.visible metadata
          ≠ DataSeriesMetadata.visible prevMetadata
      end.

(** The chart of [c] is the chart [h] with more calls received. *)
Definition extends (h : Handle) (c : t) : Prop :=
  ∃ sent, lineChart c
          = Some {| klass := klass h; params := params h;
                    received := received h ++ sent |}.

(** The view box the chart was last told, if any. *)
Definition viewBoxSent (calls : list Call) : option Extent.t :=
  foldl (fun sent call =>
           match call with
           | CallUpdateViewBox extent => Some extent
           | _ => sent
           end) None calls.

(** The chart knows the view box of the component. *)
Definition viewBoxInSync (c : t) : Prop :=
  ∃ h, lineChart c = Some h ∧ viewBoxSent (received h) = Some (viewExtent c).

(** No chart yet, and the view extent still to be sent to it. *)
Definition awaitsChart (c : t) : Prop :=
  lineChart c = None ∧ isViewExtentUpdated c = true.

(** Every series of the data has an entry of its own in the metadata map.
    The object [updateProp] hands to [updateMetadata] then holds no
    [undefined], and the call returns. *)
Definition covered (c : t) : bool :=
  forallb (fun s =>
             bool_decide (is_Some (seriesMetadataMap c !! DataSeries.id s)))
          (seriesData c).

(** No series is named like a member of [Object.prototype]. *)
Definition plainIds (c : t) : bool :=
  forallb (fun s =>
             bool_decide (DataSeries.id s ∉ Chart.objectPrototypeNames))
          (seriesData c).

(** A call that carries no [undefined] metadata: a [Chart] returns from
    it. *)
Definition defined (call : Call) : Prop :=
  match call with
  | CallUpdateMetadata metadata => ∀ key, metadata !! key ≠ Some None
  | _ => True
  end.

(** Every call the chart of the component has received is defined. *)
Definition receivedDefined (c : t) : Prop :=
  ∀ h, lineChart c = Some h -> Forall defined (received h).

(** The inputs are covered at every hook of the list: after each binding
    pass the metadata map has an entry for every series. *)
Fixpoint coveredThroughout `{Imports} (hooks : list Hook) (c : t) : bool :=
  match hooks with
  | [] => true
  | hook :: hooks =>
      covered (match hook with Bound ic => assign ic c | _ => c end)
      && coveredThroughout hooks (fire hook c)
  end.
End ComponentProps.

(** ** Concrete charts and components used as examples *)

Module Scenario.
Import Chart.

Definition seriesA : DataSeries.t :=
  DataSeries.mk "a" [Point.mk 0 0; Point.mk 1 1].

Definition seriesB : DataSeries.t :=
  DataSeries.mk "b" [Point.mk 0 2; Point.mk 1 3].

Definition black (id : string) : DataSeriesMetadata.t :=
  DataSeriesMetadata.mk id id true "#000" 1.

Definition red (id : string) : DataSeriesMetadata.t :=
  DataSeriesMetadata.mk id id true "#f00" 1.

Definition renamed (id : string) : DataSeriesMetadata.t :=
  DataSeriesMetadata.mk id "another name" true "#000" 1.

Definition hidden (id : string) : DataSeriesMetadata.t :=
  DataSeriesMetadata.mk id id false "#000" 1.

Definition bothBlack : DataSeriesMetadataMap :=
  {[ "a" := black "a"; "b" := black "b" ]}.

Definition unitBox : Extent.t := DEFAULT_EXTENT.

Definition wideBox : Extent.t :=
  {| Extent.x := ((-5)%float, 5%float); Extent.y := ((-5)%float, 5%float) |}.

Definition pannedBox : Extent.t :=
  {| Extent.x := (2%float, 3%float); Extent.y := (2%float, 3%float) |}.

Definition svgOption (script : list Op) : ChartOption.t :=
  ChartOption.mk (Recognized SVG) 7 1 {| onDrawEnd := script |}
                 (Dimension.mk 300 200) LINEAR LINEAR.

Definition webglOption : ChartOption.t :=
  ChartOption.mk (Recognized WEBGL) 8 2 {| onDrawEnd := [] |}
                 (Dimension.mk 300 200) LINEAR LOG10.

Definition strangeOption : ChartOption.t :=
  ChartOption.mk (Unrecognized 2) 9 1 {| onDrawEnd := [] |}
                 (Dimension.mk 300 200) LINEAR LINEAR.

(** The chart [new Chart(svgOption script)] returns. *)
Definition constructed (script : list Op) : State :=
  let c := mk (Renderer.new (Renderer.Svg 7)) SeriesLineView.new
              (Coordinator.new Coordinator.Base) ∅
              {| onDrawEnd := script |} false in
  resize (Dimension.mk 300 200)
    (setYScaleType LINEAR (setXScaleType LINEAR (mkState c 0 []))).

(** A chart whose host does nothing in [onDrawEnd], after its first frame:
    idle, series a on screen. *)
Definition idle : State :=
  animationFrame
    (calls [UpdateMetadata bothBlack; UpdateData [seriesA]; UpdateViewBox unitBox]
           (constructed [])).

(** A chart whose [onDrawEnd] replaces the data by series b, with a frame
    pending that is to draw series a. *)
Definition reentrant : State :=
  calls [UpdateMetadata bothBlack; UpdateData [seriesA]; UpdateViewBox unitBox]
        (constructed [UpdateData [seriesB]]).

Definition reentrantAfterFrame : State := animationFrame reentrant.

(** Stand-ins for the imports of the component. *)
Definition extentsEqual (a b : Extent.t) : bool :=
  strictEq (Extent.x a).1 (Extent.x b).1 && strictEq (Extent.x a).2 (Extent.x b).2
  && strictEq (Extent.y a).1 (Extent.y b).1 && strictEq (Extent.y a).2 (Extent.y b).2.

Definition padded (s : Scale) (domain : number * number) : number * number :=
  (PrimFloat.sub domain.1 1, PrimFloat.add domain.2 1).

Definition fixedDataExtent (data : list DataSeries.t)
    (metadataMap : DataSeriesMetadataMap) : Extent.t :=
  {| Extent.x := (0%float, 10%float); Extent.y := (0%float, 20%float) |}.

Definition imports : Imports :=
  {| niceDomain := padded;
     areExtentsEqual := extentsEqual;
     computeDataSeriesExtent := fixedDataExtent;
     getRendererType := fun preferred => preferred;
     isWebGl2Supported := false;
     isOffscreenCanvasSupported := false;
     chartEl := 7;
     clientMain := Dimension.mk 300 200;
     clientXAxis := Dimension.mk 300 30;
     clientYAxis := Dimension.mk 50 200;
     windowDevicePixelRatio := 1%float |}.

(** A component after the first [ngOnChanges], which reports the data and
    the metadata map as changed from [undefined], and [ngAfterViewInit]:
    its chart exists and its view box is the default derived from the data
    extent. *)
Definition mounted : LineChartComponent.t :=
  @LineChartComponent.ngAfterViewInit imports
    (@LineChartComponent.ngOnChanges imports
       (SimpleChanges.mk false false true false (Some None))
       (@LineChartComponent.new imports [seriesA] bothBlack)).


(** The user pans the view box of [mounted]. *)
Definition panned : LineChartComponent.t :=
  @LineChartComponent.onViewExtentChanged imports pannedBox mounted.
End Scenario.

(** ** Scheduling facts *)

Module ChartFacts.
Import Chart ChartProps.

Ltac open_state s :=
  let c := fresh "c" in
  destruct s as [c ? ?]; destruct c as [? ? ? ? ? [|]].

Ltac run_call :=
  unfold call, resize, updateMetadata, updateViewBox, updateData,
    setXScaleType, setYScaleType, dispose, scheduleRedraw, onThis;
  cbn [this frameRequests trace shouldRedraw renderer callbacks
       seriesLineView coordinator metadataMap setShouldRedraw setRenderer
       setSeriesLineView setCoordinator setMetadataMap].

Lemma scheduleRedraw_flag s : shouldRedraw (this (scheduleRedraw s)) = true.
Proof. open_state s; reflexivity. Qed.

Lemma call_flag op s :
  shouldRedraw (this (call op s)) = shouldRedraw (this s) || isUpdate op.
Proof.
  destruct op; open_state s; run_call;
    try match goal with |- context [foldl mergeEntry ?a ?l] =>
      destruct (foldl mergeEntry a l) as [[|] ?] end;
    reflexivity.
Qed.

Lemma call_requests op s :
  frameRequests (call op s) =
  if isUpdate op && negb (shouldRedraw (this s))
  then S (frameRequests s) else frameRequests s.
Proof.
  destruct op; open_state s; run_call;
    try match goal with |- context [foldl mergeEntry ?a ?l] =>
      destruct (foldl mergeEntry a l) as [[|] ?] end;
    reflexivity.
Qed.

Lemma call_trace op s : trace (call op s) = trace s.
Proof.
  destruct op; open_state s; run_call;
    try match goal with |- context [foldl mergeEntry ?a ?l] =>
      destruct (foldl mergeEntry a l) as [[|] ?] end;
    reflexivity.
Qed.

Lemma call_batch op s :
  Renderer.batch (renderer (this (call op s)))
  = Renderer.batch (renderer (this s)).
Proof.
  destruct op; open_state s; run_call;
    try match goal with |- context [foldl mergeEntry ?a ?l] =>
      destruct (foldl mergeEntry a l) as [[|] ?] end;
    reflexivity.
Qed.

Lemma call_callbacks op s : callbacks (this (call op s)) = callbacks (this s).
Proof.
  destruct op; open_state s; run_call;
    try match goal with |- context [foldl mergeEntry ?a ?l] =>
      destruct (foldl mergeEntry a l) as [[|] ?] end;
    reflexivity.
Qed.

Lemma call_betweenFrames op s : betweenFrames s -> betweenFrames (call op s).
Proof.
  unfold betweenFrames. intros [Hq Hb].
  rewrite call_requests, call_flag, call_batch, Hq.
  split; [|exact Hb].
  destruct (shouldRedraw (this s)), (isUpdate op); reflexivity.
Qed.

Lemma calls_snoc ops op s : calls (ops ++ [op]) s = call op (calls ops s).
Proof. unfold calls. by rewrite foldl_snoc. Qed.

Lemma calls_trace ops s : trace (calls ops s) = trace s.
Proof.
  induction ops as [|op ops IH] using rev_ind; [done|].
  by rewrite calls_snoc, call_trace.
Qed.

Lemma calls_batch ops s :
  Renderer.batch (renderer (this (calls ops s)))
  = Renderer.batch (renderer (this s)).
Proof.
  induction ops as [|op ops IH] using rev_ind; [done|].
  by rewrite calls_snoc, call_batch.
Qed.

Lemma calls_callbacks ops s : callbacks (this (calls ops s)) = callbacks (this s).
Proof.
  induction ops as [|op ops IH] using rev_ind; [done|].
  by rewrite calls_snoc, call_callbacks.
Qed.


(** While the flag is set no call requests a frame, and the flag stays. *)
Lemma calls_in_flight ops s :
  shouldRedraw (this s) = true ->
  shouldRedraw (this (calls ops s)) = true
  ∧ frameRequests (calls ops s) = frameRequests s.
Proof.
  intros Hs. induction ops as [|op ops [IHf IHq]] using rev_ind; [done|].
  rewrite calls_snoc, call_flag, call_requests, IHf, IHq.
  split; [done|]. by rewrite andb_false_r.
Qed.


Lemma redraw_trace s :
  trace (redraw s) =
  trace s ++ [FrameCommitted (Renderer.batch (renderer (this s))
                              ++ currentFrame (this s)); DrawEnd].
Proof.
  unfold redraw. rewrite calls_trace. destruct s as [c n tr].
  cbn. by rewrite <- app_assoc.
Qed.

Lemma redraw_batch s : Renderer.batch (renderer (this (redraw s))) = [].
Proof. unfold redraw. by rewrite calls_batch. Qed.

Lemma redraw_in_flight s :
  shouldRedraw (this s) = true ->
  shouldRedraw (this (redraw s)) = true
  ∧ frameRequests (redraw s) = frameRequests s.
Proof.
  intros Hs. unfold redraw.
  match goal with |- context [calls ?o ?s'] =>
    destruct (calls_in_flight o s') as [Hf Hq] end.
  { by destruct s as [[]]. }
  split; [exact Hf|]. rewrite Hq. by destruct s.
Qed.

(** An animation frame with the flag set runs the one queued callback. *)
Lemma animationFrame_pending s :
  betweenFrames s -> shouldRedraw (this s) = true ->
  animationFrame s
  = onThis (setShouldRedraw false) (redraw (mkState (this s) 0 (trace s))).
Proof.
  intros [Hq _] Hf. unfold animationFrame. rewrite Hq, Hf. reflexivity.
Qed.

(** An animation frame with the flag clear runs nothing. *)
Lemma animationFrame_idle s :
  betweenFrames s -> shouldRedraw (this s) = false -> animationFrame s = s.
Proof.
  intros [Hq _] Hf. unfold animationFrame. rewrite Hq, Hf.
  destruct s as [c n tr]. cbn in *. rewrite Hf in Hq. by subst n.
Qed.

Lemma animationFrame_betweenFrames s :
  betweenFrames s -> betweenFrames (animationFrame s).
Proof.
  intros Hs. destruct (shouldRedraw (this s)) eqn:Hf.
  - rewrite animationFrame_pending by done.
    destruct (redraw_in_flight (mkState (this s) 0 (trace s)) Hf) as [_ Hq].
    pose proof (redraw_batch (mkState (this s) 0 (trace s))) as Hb.
    destruct (redraw (mkState (this s) 0 (trace s))) as [[]]. cbn in *.
    by split.
  - by rewrite animationFrame_idle.
Qed.

(** The one frame of a pending animation frame. *)
Lemma animationFrame_trace s :
  betweenFrames s -> shouldRedraw (this s) = true ->
  trace (animationFrame s)
  = trace s ++ [FrameCommitted (currentFrame (this s)); DrawEnd].
Proof.
  intros Hs Hf. rewrite animationFrame_pending by done.
  destruct Hs as [_ Hb].
  pose proof (redraw_trace (mkState (this s) 0 (trace s))) as Ht.
  cbn [this trace] in Ht. rewrite Hb in Ht. cbn [app] in Ht.
  by destruct (redraw (mkState (this s) 0 (trace s))).
Qed.

Lemma calls_cons op ops s : calls (op :: ops) s = calls ops (call op s).
Proof. reflexivity. Qed.

Lemma calls_app ops ops' s : calls (ops ++ ops') s = calls ops' (calls ops s).
Proof. unfold calls. by rewrite foldl_app. Qed.

(** The last writer wins: the data are those of the last [updateData]. *)
Lemma calls_keepsData ops s :
  keepsData ops = true ->
  SeriesLineView.data (seriesLineView (this (calls ops s)))
  = SeriesLineView.data (seriesLineView (this s)).
Proof.
  induction ops as [|op ops IH] using rev_ind; [done|]. unfold keepsData.
  rewrite forallb_app. intros [Hops Hop]%andb_prop.
  rewrite calls_snoc, <- (IH Hops). generalize (calls ops s) as s'. intros s'.
  destruct op; try discriminate Hop; open_state s'; run_call;
    try match goal with |- context [foldl mergeEntry ?a ?l] =>
      destruct (foldl mergeEntry a l) as [[|] ?] end;
    reflexivity.
Qed.



(** The [forEach] of [updateMetadata] over entries with distinct keys: an
    entry still finds its prior value when its turn comes, since only
    other keys were written before. *)
Lemma foldl_mergeEntry (l : list (string * DataSeriesMetadata.t)) :
  NoDup l.*1 ->
  ∀ (b : bool) (m m0 : DataSeriesMetadataMap),
    (∀ e, e ∈ l -> m !! e.1 = m0 !! e.1) ->
    (foldl mergeEntry (b, m) l).1
    = b || existsb (fun e => entryNeedsRepaint (m0 !! e.1) e.2) l
    ∧ (foldl mergeEntry (b, m) l).2 = list_to_map l ∪ m.
Proof.
  induction l as [|[id md] l IH]; intros Hnd b m m0 Hm.
  - cbn. by rewrite orb_false_r, (left_id_L ∅ (∪)).
  - rewrite fmap_cons in Hnd. apply NoDup_cons in Hnd as [Hid Hnd].
    cbn [foldl fst] in *.
    unfold mergeEntry at 2 4. cbn [fst snd].
    destruct (IH Hnd
                (if entryNeedsRepaint (m !! id) md then true else b)
                (<[id:=md]> m) m0) as [IHb IHm].
    { intros e He. rewrite lookup_insert_ne; [apply Hm; by right|].
      intros Heq. apply Hid. rewrite Heq. by apply list_elem_of_fmap_2. }
    rewrite IHb, IHm. split.
    + pose proof (Hm (id, md) ltac:(left)) as Hid0. cbn [fst] in Hid0.
      rewrite Hid0. cbn [existsb fst snd].
      destruct (entryNeedsRepaint (m0 !! id) md), b; reflexivity.
    + cbn [list_to_map foldr fst snd uncurry].
      rewrite <- insert_union_l. symmetry. apply insert_union_r.
      by apply not_elem_of_list_to_map_1.
Qed.

Lemma needsRepaint_true (m existing : DataSeriesMetadataMap) :
  needsRepaint m existing = true
  ↔ ∃ id md, m !! id = Some md ∧ entryNeedsRepaint (existing !! id) md = true.
Proof.
  unfold needsRepaint. rewrite existsb_exists. split.
  - intros [[id md] [Hin Hr]]. exists id, md. split; [|exact Hr].
    by apply elem_of_map_to_list, list_elem_of_In.
  - intros (id & md & Hm & Hr). exists (id, md). split; [|exact Hr].
    by apply list_elem_of_In, elem_of_map_to_list.
Qed.

(** [updateMetadata], statement by statement. *)
Lemma updateMetadata_effect (m : DataSeriesMetadataMap) (s : State) :
  metadataMap (this (updateMetadata m s)) = m ∪ metadataMap (this s)
  ∧ SeriesLineView.paintDirty (seriesLineView (this (updateMetadata m s)))
    = SeriesLineView.paintDirty (seriesLineView (this s))
      || needsRepaint m (metadataMap (this s))
  ∧ SeriesLineView.data (seriesLineView (this (updateMetadata m s)))
    = SeriesLineView.data (seriesLineView (this s))
  ∧ coordinator (this (updateMetadata m s)) = coordinator (this s)
  ∧ renderer (this (updateMetadata m s)) = renderer (this s).
Proof.
  destruct (foldl_mergeEntry (map_to_list m) (NoDup_fst_map_to_list m)
              false (metadataMap (this s)) (metadataMap (this s)))
    as [Hb Hm]; [done|].
  rewrite list_to_map_to_list in Hm. cbn [orb] in Hb.
  fold (needsRepaint m (metadataMap (this s))) in Hb.
  unfold updateMetadata. rewrite Hb, Hm.
  open_state s; destruct (needsRepaint _ _); cbn;
    rewrite ?orb_true_r, ?orb_false_r; done.
Qed.

Lemma framesCommitted_app tr tr' :
  framesCommitted (tr ++ tr') = framesCommitted tr + framesCommitted tr'.
Proof. unfold framesCommitted. by rewrite List.filter_app, length_app. Qed.

Lemma drawEnds_app tr tr' : drawEnds (tr ++ tr') = drawEnds tr + drawEnds tr'.
Proof. unfold drawEnds. by rewrite List.filter_app, length_app. Qed.
End ChartFacts.

(** ** The chart: construction *)

Module ChartTheorems.
Import Chart ChartProps ChartFacts.

Lemma new_constructed script :
  new (Scenario.svgOption script) = Ok (Scenario.constructed script).
Proof. reflexivity. Qed.

Lemma new_betweenFrames option s : new option = Ok s -> betweenFrames s.
Proof.
  unfold new. destruct (ChartOption.type option) as [[|]|]; cbn;
    intros [= <-]; by split.
Qed.

(** C6.  The construction switches on the backend kind and nothing else:
    [SVG] gives a chart made of a [Coordinator] and an [SvgRenderer] on the
    container, [WEBGL] one made of a [ThreeCoordinator] and a
    [ThreeRenderer] on the container with the device pixel ratio, in both
    cases fully initialised (both scales set, the surface allocated, the
    layout set, the first frame requested); any other value makes the
    constructor throw, and no chart results. *)
Theorem construction_is_exhaustive (option : ChartOption.t) :
  match ChartOption.type option with
  | Recognized kind =>
      ∃ s, new option = Ok s
        ∧ Coordinator.class (coordinator (this s))
          = match kind with
            | SVG => Coordinator.Base
            | WEBGL => Coordinator.Three
            end
        ∧ Renderer.backend (renderer (this s))
          = match kind with
            | SVG => Renderer.Svg (ChartOption.container option)
            | WEBGL => Renderer.Three (ChartOption.container option)
                         (ChartOption.devicePixelRatio option)
            end
        ∧ Coordinator.xScale (coordinator (this s))
          = Some (createScale (ChartOption.xScaleType option))
        ∧ Coordinator.yScale (coordinator (this s))
          = Some (createScale (ChartOption.yScaleType option))
        ∧ Coordinator.domContainerRect (coordinator (this s))
          = Some (Rect.ofDimension (ChartOption.domDimension option))
        ∧ Renderer.surface (renderer (this s))
          = Some (Rect.ofDimension (ChartOption.domDimension option))
        ∧ SeriesLineView.layoutRect (seriesLineView (this s))
          = Some (Rect.ofDimension (ChartOption.domDimension option))
        ∧ callbacks (this s) = ChartOption.callbacks option
        ∧ shouldRedraw (this s) = true ∧ frameRequests s = 1
  | Unrecognized _ =>
      ∃ e, new option = Throw e ∧ ∀ s, new option ≠ Ok s
  end.
Proof.
  unfold new. destruct (ChartOption.type option) as [[|]|raw]; cbn.
  - eexists. split; [reflexivity|]. cbn. repeat split.
  - eexists. split; [reflexivity|]. cbn. repeat split.
  - eexists. split; [reflexivity|]. intros s. discriminate.
Qed.

(** ** The chart: redraw scheduling *)



(** C2, as amended.  The in-flight flag is still set when [redraw] returns,
    [onDrawEnd] included, and is cleared right after.  Calls made during
    the draw therefore request no frame: the frame in progress is committed
    once, from the state before the callback ran, and when it ends the flag
    is clear and no frame is queued, so the next animation frame does
    nothing.  The calls do change the chart (it holds the data of the
    callback's last [updateData]), and what they changed is drawn by the
    frame that the next update after the draw schedules. *)
Theorem mutation_during_draw_waits (s : State) :
  betweenFrames s -> shouldRedraw (this s) = true ->
  shouldRedraw (this (redraw (mkState (this s) 0 (trace s)))) = true
  ∧ frameRequests (redraw (mkState (this s) 0 (trace s))) = 0
  ∧ shouldRedraw (this (animationFrame s)) = false
  ∧ frameRequests (animationFrame s) = 0
  ∧ trace (animationFrame s)
    = trace s ++ [FrameCommitted (currentFrame (this s)); DrawEnd]
  ∧ animationFrame (animationFrame s) = animationFrame s
  ∧ (∀ ops1 data ops2,
       onDrawEnd (callbacks (this s)) = ops1 ++ UpdateData data :: ops2 ->
       keepsData ops2 = true ->
       SeriesLineView.data (seriesLineView (this (animationFrame s))) = data)
  ∧ ∀ op, isUpdate op = true ->
      frameRequests (call op (animationFrame s)) = 1
      ∧ trace (animationFrame (call op (animationFrame s)))
        = trace (animationFrame s)
          ++ [FrameCommitted (currentFrame (this (call op (animationFrame s))));
              DrawEnd].
Proof.
  intros Hs Hf.
  destruct (redraw_in_flight (mkState (this s) 0 (trace s)) Hf) as [Hrf Hrq].
  pose proof (animationFrame_betweenFrames s Hs) as Hs'.
  assert (shouldRedraw (this (animationFrame s)) = false) as Hf'.
  { rewrite animationFrame_pending by done. by destruct (redraw _) as [[]]. }
  split; [exact Hrf|]. split; [exact Hrq|]. split; [exact Hf'|].
  split; [by destruct Hs' as [-> _]; rewrite Hf'|].
  split; [by apply animationFrame_trace|].
  split; [by apply animationFrame_idle|].
  split.
  { intros ops1 data ops2 Hcb Hk. rewrite animationFrame_pending by done.
    unfold redraw. cbn [this]. rewrite Hcb, calls_app, calls_cons.
    set (s1 := call (UpdateData data) _).
    transitivity (SeriesLineView.data (seriesLineView (this (calls ops2 s1)))).
    { by destruct (calls ops2 s1) as [[]]. }
    rewrite (calls_keepsData _ _ Hk). subst s1. cbn [call].
    match goal with |- context [updateData data ?s'] =>
      by destruct s' as [[? ? ? ? ? [|]] ? ?] end. }
  intros op Hop.
  pose proof (call_betweenFrames op _ Hs') as Hs''.
  assert (shouldRedraw (this (call op (animationFrame s))) = true) as Hf''.
  { rewrite call_flag, Hop. apply orb_true_r. }
  split.
  - destruct Hs'' as [-> _]. by rewrite Hf''.
  - rewrite (animationFrame_trace _ Hs'' Hf''). by rewrite call_trace.
Qed.

Lemma mutation_during_draw_waits_witness :
  trace (animationFrame Scenario.reentrant)
  = trace Scenario.reentrant
    ++ [FrameCommitted (currentFrame (this Scenario.reentrant)); DrawEnd].
Proof.
  refine (proj1 (proj2 (proj2 (proj2 (proj2
    (mutation_during_draw_waits Scenario.reentrant _ _)))))).
  - split; reflexivity.
  - reflexivity.
Defined.

(** C2, as stated, fails.  The callback of [Scenario.reentrant] calls
    [updateData] with series b during the draw of series a.  After the
    frame the chart holds series b, the screen shows series a, the flag is
    clear and no frame is queued: the mutation is in no scheduled frame,
    and the next animation frame commits nothing. *)
Lemma mutation_during_draw_not_scheduled :
  existsb isUpdate (onDrawEnd (callbacks (this Scenario.reentrant))) = true
  ∧ SeriesLineView.data (seriesLineView (this Scenario.reentrantAfterFrame))
    = [Scenario.seriesB]
  ∧ map seriesId (Renderer.screen (renderer (this Scenario.reentrantAfterFrame)))
    = ["a"]
  ∧ map seriesId (currentFrame (this Scenario.reentrantAfterFrame)) = ["b"]
  ∧ shouldRedraw (this Scenario.reentrantAfterFrame) = false
  ∧ frameRequests Scenario.reentrantAfterFrame = 0
  ∧ trace (animationFrame Scenario.reentrantAfterFrame)
    = trace Scenario.reentrantAfterFrame.
Proof. vm_compute. repeat split. Qed.

(** ** The chart: disposal and scale types *)

(** C3, as amended.  [dispose] can be called in any state and calling it
    twice is the same as calling it once, but it does nothing: the chart,
    the renderer's resources included, its flag, its queued frame and its
    trace are as before, every later call and frame behaves as if it had
    not been called, and the component's [ngOnDestroy] forwards one
    [dispose] call to its chart when it has one. *)
Theorem dispose_does_nothing (s : State) :
  dispose s = s
  ∧ dispose (dispose s) = dispose s
  ∧ renderer (this (dispose s)) = renderer (this s)
  ∧ (∀ ops, calls ops (dispose s) = calls ops s)
  ∧ animationFrame (dispose s) = animationFrame s
  ∧ ∀ c, LineChartComponent.lineChart (LineChartComponent.ngOnDestroy c)
         = send CallDispose <$> LineChartComponent.lineChart c.
Proof.
  split_and!; try reflexivity.
  intros c. unfold LineChartComponent.ngOnDestroy, LineChartComponent.tell.
  destruct (LineChartComponent.lineChart c) as [h|] eqn:Hh; [|by rewrite Hh].
  by destruct c.
Qed.

(** C3, as stated, fails.  [Scenario.idle] owns a surface and has series a
    on screen.  After [dispose] the renderer still owns both, and the chart
    is not in a terminal state: one more [updateData] requests a frame,
    which is committed. *)
Lemma dispose_releases_nothing :
  Renderer.released (renderer (this Scenario.idle)) = false
  ∧ Renderer.released (renderer (this (dispose Scenario.idle))) = false
  ∧ frameRequests (updateData [Scenario.seriesB] (dispose Scenario.idle)) = 1
  ∧ framesCommitted
      (trace (animationFrame
                (updateData [Scenario.seriesB] (dispose Scenario.idle))))
    = S (framesCommitted (trace (dispose Scenario.idle))).
Proof. vm_compute. repeat split. Qed.

(** What [setXScaleType] and [setYScaleType] do in any state: the scale of
    that axis is recreated and swapped into the coordinator, and nothing
    else changes; in particular the flag and the queue are as before. *)
Lemma setScaleType_effect (type : ScaleType) (s : State) :
  coordinator (this (setXScaleType type s))
  = Coordinator.setXScale (createScale type) (coordinator (this s))
  ∧ coordinator (this (setYScaleType type s))
    = Coordinator.setYScale (createScale type) (coordinator (this s))
  ∧ shouldRedraw (this (setXScaleType type s)) = shouldRedraw (this s)
  ∧ shouldRedraw (this (setYScaleType type s)) = shouldRedraw (this s)
  ∧ frameRequests (setXScaleType type s) = frameRequests s
  ∧ frameRequests (setYScaleType type s) = frameRequests s.
Proof. repeat split. Qed.

(** C4 at an idle chart.  [setXScaleType LOG10] and [setYScaleType LOG10]
    swap the scale into the coordinator and request no frame: the flag is
    clear, the queue is empty and the next animation frame commits nothing,
    while the frame the chart would draw now differs from the screen.  The
    sibling [updateViewBox] requests a frame in the same state. *)
Theorem setScaleType_schedules_nothing :
  Coordinator.xScale (coordinator (this (setXScaleType LOG10 Scenario.idle)))
  = Some (createScale LOG10)
  ∧ Coordinator.yScale (coordinator (this (setYScaleType LOG10 Scenario.idle)))
    = Some (createScale LOG10)
  ∧ shouldRedraw (this Scenario.idle) = false
  ∧ shouldRedraw (this (setXScaleType LOG10 Scenario.idle)) = false
  ∧ shouldRedraw (this (setYScaleType LOG10 Scenario.idle)) = false
  ∧ frameRequests (setXScaleType LOG10 Scenario.idle) = 0
  ∧ frameRequests (setYScaleType LOG10 Scenario.idle) = 0
  ∧ trace (animationFrame (setXScaleType LOG10 Scenario.idle))
    = trace Scenario.idle
  ∧ trace (animationFrame (setYScaleType LOG10 Scenario.idle))
    = trace Scenario.idle
  ∧ currentFrame (this (setXScaleType LOG10 Scenario.idle))
    ≠ Renderer.screen (renderer (this (setXScaleType LOG10 Scenario.idle)))
  ∧ frameRequests (updateViewBox Scenario.unitBox Scenario.idle) = 1.
Proof. vm_compute. repeat split. discriminate. Qed.

(** ** The chart: metadata *)

(** C5.  [updateMetadata] merges the entries passed into the chart's map:
    an id passed now maps to the entry passed, any other id keeps its
    entry.  If some entry passed has a prior entry and differs from it in
    color, in visibility or in opacity, the series view is paint-dirty
    afterwards.  In every case the in-flight flag is set afterwards, a frame
    is requested unless the flag was set already, and between frames exactly
    one frame callback is queued. *)
Theorem updateMetadata_merges_and_schedules
    (m : DataSeriesMetadataMap) (s : State) :
  metadataMap (this (updateMetadata m s)) = m ∪ metadataMap (this s)
  ∧ (∀ id md, m !! id = Some md ->
       metadataMap (this (updateMetadata m s)) !! id = Some md)
  ∧ (∀ id, m !! id = None ->
       metadataMap (this (updateMetadata m s)) !! id
       = metadataMap (this s) !! id)
  ∧ (∀ id md old,
       m !! id = Some md -> metadataMap (this s) !! id = Some old ->
       DataSeriesMetadata.color md ≠ DataSeriesMetadata.color old
       ∨ DataSeriesMetadata.visible md ≠ DataSeriesMetadata.visible old
       ∨ strictNeq (DataSeriesMetadata.opacity md)
                   (DataSeriesMetadata.opacity old) = true ->
       SeriesLineView.paintDirty (seriesLineView (this (updateMetadata m s)))
       = true)
  ∧ shouldRedraw (this (updateMetadata m s)) = true
  ∧ frameRequests (updateMetadata m s)
    = (if shouldRedraw (this s) then frameRequests s else S (frameRequests s))
  ∧ (betweenFrames s -> frameRequests (updateMetadata m s) = 1).
Proof.
  destruct (updateMetadata_effect m s) as (Hm & Hd & _).
  pose proof (call_flag (UpdateMetadata m) s) as Hf.
  pose proof (call_requests (UpdateMetadata m) s) as Hq.
  cbn [call isUpdate andb] in Hf, Hq. rewrite orb_true_r in Hf.
  split_and!.
  - exact Hm.
  - intros id md Hid. rewrite Hm. by apply lookup_union_Some_l.
  - intros id Hid. rewrite Hm. by apply lookup_union_r.
  - intros id md old Hid Hold Hdiff. rewrite Hd.
    apply orb_true_iff. right. apply needsRepaint_true.
    exists id, md. split; [exact Hid|]. rewrite Hold. cbn.
    destruct Hdiff as [Hc|[Hv|Ho]].
    + by rewrite (bool_decide_eq_true_2 _ Hc).
    + rewrite (bool_decide_eq_true_2 _ Hv). by rewrite orb_true_r.
    + rewrite Ho. by rewrite orb_true_r.
  - exact Hf.
  - rewrite Hq. by destruct (shouldRedraw (this s)).
  - intros [Hb _]. rewrite Hq, Hb. by destruct (shouldRedraw (this s)).
Qed.

(** On the idle chart, making series a red marks the view paint-dirty and
    queues one frame. *)
Lemma updateMetadata_merges_and_schedules_witness :
  SeriesLineView.paintDirty
    (seriesLineView
       (this (updateMetadata {[ "a" := Scenario.red "a" ]} Scenario.idle)))
  = true
  ∧ frameRequests (updateMetadata {[ "a" := Scenario.red "a" ]} Scenario.idle)
    = 1.
Proof.
  pose proof (updateMetadata_merges_and_schedules
                {[ "a" := Scenario.red "a" ]} Scenario.idle)
    as (_ & _ & _ & Hdirty & _ & _ & Hone).
  split.
  - apply (Hdirty "a" (Scenario.red "a") (Scenario.black "a")).
    + reflexivity.
    + reflexivity.
    + left. discriminate.
  - apply Hone. split; reflexivity.
Defined.

(** C10.  An entry whose id has no prior entry in the chart's map marks the
    series view paint-dirty, whatever the entry holds.  When every entry
    passed has a prior entry with the same color, the same visibility and
    an opacity that is [===] to the prior one, so that at most the display
    name differs, the call leaves the paint-dirty flag as it was. *)
Theorem new_entry_repaints_rename_does_not
    (m : DataSeriesMetadataMap) (s : State) :
  ((∃ id md, m !! id = Some md ∧ metadataMap (this s) !! id = None) ->
   SeriesLineView.paintDirty (seriesLineView (this (updateMetadata m s)))
   = true)
  ∧ ((∀ id md, m !! id = Some md ->
        ∃ old, metadataMap (this s) !! id = Some old
          ∧ DataSeriesMetadata.color md = DataSeriesMetadata.color old
          ∧ DataSeriesMetadata.visible md = DataSeriesMetadata.visible old
          ∧ strictEq (DataSeriesMetadata.opacity md)
                     (DataSeriesMetadata.opacity old) = true) ->
     SeriesLineView.paintDirty (seriesLineView (this (updateMetadata m s)))
     = SeriesLineView.paintDirty (seriesLineView (this s))).
Proof.
  destruct (updateMetadata_effect m s) as (_ & Hd & _). rewrite Hd. split.
  - intros (id & md & Hid & Hnew). apply orb_true_iff. right.
    apply needsRepaint_true. exists id, md. by rewrite Hnew.
  - intros Hsame. destruct (needsRepaint m (metadataMap (this s))) eqn:Hr;
      [|by rewrite orb_false_r].
    apply needsRepaint_true in Hr as (id & md & Hid & Hr).
    destruct (Hsame id md Hid) as (old & Hold & Hc & Hv & Ho).
    rewrite Hold in Hr. cbn in Hr. unfold strictNeq in Hr.
    rewrite Hc, Hv, Ho in Hr.
    rewrite !bool_decide_eq_false_2 in Hr by (intros Hne; by apply Hne).
    discriminate.
Qed.

(** Opacities are compared with [!==]: an entry whose opacity is NaN
    differs from itself and marks the view paint-dirty every time. *)
Lemma nan_opacity_differs_from_itself :
  entryNeedsRepaint (Some (DataSeriesMetadata.mk "a" "a" true "#000" nan))
                    (DataSeriesMetadata.mk "a" "a" true "#000" nan)
  = true.
Proof. reflexivity. Qed.

(** On the idle chart, whose map holds a and b: an entry for the unknown
    series c marks the view paint-dirty, renaming a does not. *)
Lemma new_entry_repaints_rename_does_not_witness :
  SeriesLineView.paintDirty
    (seriesLineView
       (this (updateMetadata {[ "c" := Scenario.black "c" ]} Scenario.idle)))
  = true
  ∧ SeriesLineView.paintDirty
      (seriesLineView
         (this (updateMetadata {[ "a" := Scenario.renamed "a" ]} Scenario.idle)))
    = SeriesLineView.paintDirty (seriesLineView (this Scenario.idle)).
Proof.
  split.
  - apply (proj1 (new_entry_repaints_rename_does_not
                    {[ "c" := Scenario.black "c" ]} Scenario.idle)).
    exists "c", (Scenario.black "c"). split; reflexivity.
  - apply (proj2 (new_entry_repaints_rename_does_not
                    {[ "a" := Scenario.renamed "a" ]} Scenario.idle)).
    intros id md Hid. apply lookup_singleton_Some in Hid as [<- <-].
    exists (Scenario.black "a"). repeat split.
Defined.
End ChartTheorems.

(** ** The component: view extent *)

Module ComponentTheorems.
Import LineChartComponent ComponentProps.

Section WithImports.
Context `{Imports}.

Ltac open_component c :=
  destruct c as [? ? [?|] ? ? ? ? ? ? ? ? [?|] [?|] [|] [|] [|] [|] [|]].

(** Runs the hooks on an opened component, leaving the imports, the
    metadata object and the loop of [shouldResetViewExtent] folded. *)
Ltac run_hooks :=
  cbv beta iota zeta delta
    [updateProp ngOnChanges onViewExtentChanged onViewExtentReset
     bindSeriesData bindDefaultViewExtent
     shouldResetViewExtent getDefaultViewExtent tell settled
     preferredRendererType seriesData defaultViewExtent seriesMetadataMap
     forceUseWorkerIfCanvas xScaleType yScaleType xScale yScale viewExtent
     domDimensions lineChart dataExtent isDataUpdated isMetadataUpdated
     isViewExtentUpdated isDefaultViewExtentUpdated
     maybeSetViewExtentToDefault
     set_seriesData set_defaultViewExtent set_seriesMetadataMap
     set_xScaleType set_xScale set_yScale set_viewExtent set_domDimensions
     set_lineChart set_dataExtent set_isDataUpdated set_isMetadataUpdated
     set_isViewExtentUpdated set_isDefaultViewExtentUpdated
     set_maybeSetViewExtentToDefault
     SimpleChanges.xScaleType SimpleChanges.yScaleType
     SimpleChanges.seriesData SimpleChanges.defaultViewExtent
     SimpleChanges.seriesMetadataMap orb andb negb].


Lemma updateProp_settled (c : t) :
  is_Some (lineChart c) -> settled (updateProp c).
Proof.
  intros [h Hh]. open_component c; try discriminate Hh; run_hooks;
    split_and!; eauto.
Qed.

(** [updateProp] resolves a reset to the default extent of the state it
    leaves. *)
Lemma updateProp_reset (c : t) :
  is_Some (lineChart c) -> maybeSetViewExtentToDefault c = true ->
  viewExtent (updateProp c) = getDefaultViewExtent (updateProp c).
Proof.
  intros [h Hh] Hm. open_component c; try discriminate Hh;
    try discriminate Hm; run_hooks; reflexivity.
Qed.

Lemma keepsVisibility_no_reset (prev : option DataSeriesMetadataMap)
    (m : DataSeriesMetadataMap) :
  keepsVisibility (Some prev) m ->
  existsb (entryResetsViewExtent prev) (map_to_list m) = false.
Proof.
  intros Hk. destruct (existsb _ _) eqn:He; [|done].
  apply existsb_exists in He as [[id md] [Hin He]].
  apply list_elem_of_In, elem_of_map_to_list in Hin.
  destruct (Hk prev eq_refl id md Hin) as (pm & Hpm & Hv).
  unfold entryResetsViewExtent in He. cbn [fst snd] in He.
  rewrite Hpm in He. by rewrite bool_decide_eq_false_2 in He by auto.
Qed.

Lemma changesVisibility_reset (prev : option DataSeriesMetadataMap)
    (m : DataSeriesMetadataMap) :
  changesVisibility prev m ->
  existsb (entryResetsViewExtent prev) (map_to_list m) = true.
Proof.
  intros (id & md & Hin & Hch). apply existsb_exists. exists (id, md). split.
  - by apply list_elem_of_In, elem_of_map_to_list.
  - unfold entryResetsViewExtent. cbn [fst snd].
    destruct (prev ≫= (.!! id)) as [pm|]; [|done].
    by apply bool_decide_eq_true_2.
Qed.


(** C8, as amended.  Panning sets the view box and leaves the component
    settled.  From then on, with [c] the settled component after Angular
    has bound new inputs:
    - a change that involves neither scale type and leaves no defined
      default extent newly bound keeps a view box that differs from the
      default extent, whatever happens to the data and the metadata;
    - such a change keeps the view box, manually changed or not, when the
      data are unchanged and the metadata change adds no series and changes
      no visibility (a color, say);
    - [ngAfterViewInit] keeps the view box;
    - when the calls of the pass on the chart return, which they do when
      the pass sends no metadata or every series has metadata: a scale-type
      change sets the view box to the default extent, a change of the
      default extent to a defined extent sets it to that extent, and a data
      change, or a metadata change that adds a series or changes a
      visibility, sets a view box equal to the default extent to the new
      default;
    - an explicit reset sets the view box to the default extent.
    Where a pass is cut short by a throwing [updateMetadata] the view box
    is not touched, so the passes said to keep it keep it then too. *)
Theorem manual_view_extent_kept (changes : SimpleChanges.t) (c : t) :
  settled c ->
  (∀ extent, viewExtent (onViewExtentChanged extent c) = extent
             ∧ settled (onViewExtentChanged extent c))
  ∧ (SimpleChanges.xScaleType changes = false ->
     SimpleChanges.yScaleType changes = false ->
     SimpleChanges.defaultViewExtent changes = false
     ∨ defaultViewExtent c = None ->
     areExtentsEqual (getDefaultViewExtent c) (viewExtent c) = false ->
     viewExtent (ngOnChanges changes c) = viewExtent c)
  ∧ (SimpleChanges.xScaleType changes = false ->
     SimpleChanges.yScaleType changes = false ->
     SimpleChanges.defaultViewExtent changes = false
     ∨ defaultViewExtent c = None ->
     SimpleChanges.seriesData changes = false ->
     keepsVisibility (SimpleChanges.seriesMetadataMap changes)
                     (seriesMetadataMap c) ->
     viewExtent (ngOnChanges changes c) = viewExtent c)
  ∧ viewExtent (ngAfterViewInit c) = viewExtent c
  ∧ (SimpleChanges.xScaleType changes = true
     ∨ SimpleChanges.yScaleType changes = true ->
     (SimpleChanges.seriesData changes = true
      ∨ is_Some (SimpleChanges.seriesMetadataMap changes) ->
      covered c = true) ->
     viewExtent (ngOnChanges changes c)
     = getDefaultViewExtent (ngOnChanges changes c))
  ∧ (∀ extent, SimpleChanges.defaultViewExtent changes = true ->
       defaultViewExtent c = Some extent ->
       (SimpleChanges.seriesData changes = true
        ∨ is_Some (SimpleChanges.seriesMetadataMap changes) ->
        covered c = true) ->
       viewExtent (ngOnChanges changes c) = extent)
  ∧ (SimpleChanges.xScaleType changes = false ->
     SimpleChanges.yScaleType changes = false ->
     SimpleChanges.seriesData changes = true ->
     covered c = true ->
     areExtentsEqual (getDefaultViewExtent c) (viewExtent c) = true ->
     viewExtent (ngOnChanges changes c)
     = getDefaultViewExtent (ngOnChanges changes c))
  ∧ (∀ prevMetadataMap,
       SimpleChanges.xScaleType changes = false ->
       SimpleChanges.yScaleType changes = false ->
       SimpleChanges.seriesMetadataMap changes = Some prevMetadataMap ->
       changesVisibility prevMetadataMap (seriesMetadataMap c) ->
       covered c = true ->
       areExtentsEqual (getDefaultViewExtent c) (viewExtent c) = true ->
       viewExtent (ngOnChanges changes c)
       = getDefaultViewExtent (ngOnChanges changes c))
  ∧ viewExtent (onViewExtentReset c) = getDefaultViewExtent (onViewExtentReset c).
Proof.
  intros (Hl & Hdu & Hmu & Hvu & Hdvu & Hms). destruct Hl as [h Hh].
  destruct changes as [sx sy sd sdv sm].
  cbn [SimpleChanges.xScaleType SimpleChanges.yScaleType
       SimpleChanges.seriesData SimpleChanges.defaultViewExtent
       SimpleChanges.seriesMetadataMap].
  split_and!.
  - intros extent. open_component c; try discriminate; run_hooks;
      split_and!; eauto.
  - intros -> -> Hdv Hman. unfold getDefaultViewExtent in Hman.
    open_component c; try discriminate;
      cbn [defaultViewExtent dataExtent xScale yScale viewExtent] in Hman, Hdv;
      destruct sdv; try (by destruct Hdv);
      destruct sd, sm; run_hooks; rewrite ?Hman; reflexivity.
  - intros -> -> Hdv -> Hk.
    open_component c; try discriminate;
      cbn [seriesMetadataMap defaultViewExtent] in Hk, Hdv;
      destruct sdv; try (by destruct Hdv);
      destruct sm as [prev|]; run_hooks;
      rewrite ?(keepsVisibility_no_reset _ _ Hk);
      match goal with |- context [areExtentsEqual ?a ?b] =>
        destruct (areExtentsEqual a b) end; reflexivity.
  - unfold ngAfterViewInit, initializeChart. rewrite Hh.
    open_component c; try discriminate; run_hooks; reflexivity.
  - intros Hscale _.
    open_component c; try discriminate;
      destruct sx, sy; try (by destruct Hscale);
      destruct sd, sdv, sm; run_hooks; reflexivity.
  - intros extent -> Hd _.
    open_component c; try discriminate; cbn [defaultViewExtent] in Hd;
      injection Hd as ->;
      destruct sx, sy, sd, sm; run_hooks; reflexivity.
  - intros -> -> -> _ Heq. unfold getDefaultViewExtent in Heq.
    open_component c; try discriminate;
      cbn [defaultViewExtent dataExtent xScale yScale viewExtent] in Heq;
      destruct sdv, sm; run_hooks; rewrite ?Heq; reflexivity.
  - intros prev -> -> -> Hcv%changesVisibility_reset _ Heq.
    unfold getDefaultViewExtent in Heq.
    open_component c; try discriminate;
      cbn [defaultViewExtent dataExtent xScale yScale viewExtent] in Heq;
      cbn [seriesMetadataMap] in Hcv;
      destruct sd, sdv; run_hooks; rewrite ?Heq; cbv beta iota;
      rewrite ?Hcv; reflexivity.
  - open_component c; try discriminate; run_hooks; reflexivity.
Qed.
End WithImports.

Lemma mounted_settled : @settled Scenario.mounted.
Proof. split_and!; [vm_compute; eauto|reflexivity..]. Qed.

Lemma panned_settled : @settled Scenario.panned.
Proof. split_and!; [vm_compute; eauto|reflexivity..]. Qed.



(** The scenario of C8: after a manual pan, a metadata change that only
    makes series a red leaves the view box where the user put it.  And on
    [Scenario.mounted], whose view box is the default, a metadata change
    that hides series a resets the view box to the default. *)
Lemma manual_view_extent_kept_witness :
  viewExtent
    (@ngOnChanges Scenario.imports
       (SimpleChanges.mk false false false false
          (Some (Some Scenario.bothBlack)))
       (set_seriesMetadataMap
          {[ "a" := Scenario.red "a"; "b" := Scenario.black "b" ]}
          Scenario.panned))
  = viewExtent
      (set_seriesMetadataMap
         {[ "a" := Scenario.red "a"; "b" := Scenario.black "b" ]}
         Scenario.panned)
  ∧ viewExtent
      (@ngOnChanges Scenario.imports
         (SimpleChanges.mk false false false false
            (Some (Some Scenario.bothBlack)))
         (set_seriesMetadataMap
            {[ "a" := Scenario.hidden "a"; "b" := Scenario.black "b" ]}
            Scenario.mounted))
    = @getDefaultViewExtent Scenario.imports
        (@ngOnChanges Scenario.imports
           (SimpleChanges.mk false false false false
              (Some (Some Scenario.bothBlack)))
           (set_seriesMetadataMap
              {[ "a" := Scenario.hidden "a"; "b" := Scenario.black "b" ]}
              Scenario.mounted)).
Proof.
  split.
  - refine (proj1 (proj2
      (@manual_view_extent_kept Scenario.imports
         (SimpleChanges.mk false false false false
            (Some (Some Scenario.bothBlack)))
         (set_seriesMetadataMap
            {[ "a" := Scenario.red "a"; "b" := Scenario.black "b" ]}
            Scenario.panned) _)) _ _ _ _).
    + split_and!; [vm_compute; eauto|reflexivity..].
    + reflexivity.
    + reflexivity.
    + left. reflexivity.
    + reflexivity.
  - refine (proj1 (proj2 (proj2 (proj2 (proj2 (proj2 (proj2 (proj2
      (@manual_view_extent_kept Scenario.imports
         (SimpleChanges.mk false false false false
            (Some (Some Scenario.bothBlack)))
         (set_seriesMetadataMap
            {[ "a" := Scenario.hidden "a"; "b" := Scenario.black "b" ]}
            Scenario.mounted) _))))))))
      (Some Scenario.bothBlack) _ _ _ _ _ _).
    + split_and!; [vm_compute; eauto|reflexivity..].
    + reflexivity.
    + reflexivity.
    + reflexivity.
    + exists "a", (Scenario.hidden "a"). split; [reflexivity|].
      vm_compute. discriminate.
    + vm_compute. reflexivity.
    + vm_compute. reflexivity.
Defined.

(** C8, as stated, fails.  In [Scenario.panned] the user has panned the
    view box to [{x: [2, 3], y: [2, 3]}], away from the default extent.
    Binding the default extent [{x: [-5, 5], y: [-5, 5]}], which is no
    reset, no data change, no metadata change and has nothing to do with
    the scales, overwrites the view box; so does a change of the x scale
    type, which recomputes the default from the data extent. *)
Lemma manual_view_extent_overwritten :
  viewExtent Scenario.panned = Scenario.pannedBox
  ∧ @areExtentsEqual Scenario.imports
      (@getDefaultViewExtent Scenario.imports Scenario.panned)
      (viewExtent Scenario.panned) = false
  ∧ viewExtent
      (@bindDefaultViewExtent Scenario.imports (Some Scenario.wideBox)
         Scenario.panned)
    = Scenario.wideBox
  ∧ Scenario.wideBox ≠ Scenario.pannedBox
  ∧ viewExtent (@bindXScaleType Scenario.imports LOG10 Scenario.panned)
    = {| Extent.x := ((-1)%float, 11%float);
         Extent.y := ((-1)%float, 21%float) |}
  ∧ viewExtent (@bindXScaleType Scenario.imports LOG10 Scenario.panned)
    ≠ Scenario.pannedBox.
Proof. vm_compute. split_and!; try reflexivity; discriminate. Qed.
End ComponentTheorems.

(** ** More on the chart: what calls and frames keep *)

Module ChartExtras.
Import Chart ChartProps ChartFacts.

(** [updateMetadata] as one step: the map united over the old one, the
    paint-dirty flag raised when an entry needs a repaint, and the redraw
    scheduled. *)
Lemma updateMetadata_normal (m : DataSeriesMetadataMap) (s : State) :
  updateMetadata m s
  = scheduleRedraw
      (mkState
         (mk (renderer (this s))
             (SeriesLineView.mk
                (SeriesLineView.data (seriesLineView (this s)))
                (SeriesLineView.paintDirty (seriesLineView (this s))
                 || needsRepaint m (metadataMap (this s)))
                (SeriesLineView.layoutRect (seriesLineView (this s))))
             (coordinator (this s))
             (m ∪ metadataMap (this s))
             (callbacks (this s))
             (shouldRedraw (this s)))
         (frameRequests s) (trace s)).
Proof.
  destruct (foldl_mergeEntry (map_to_list m) (NoDup_fst_map_to_list m)
              false (metadataMap (this s)) (metadataMap (this s)))
    as [Hb Hm]; [done|].
  rewrite list_to_map_to_list in Hm. cbn [orb] in Hb.
  fold (needsRepaint m (metadataMap (this s))) in Hb.
  unfold updateMetadata. rewrite Hb, Hm.
  destruct s as [[rd [d p l] co mm cb f] n tr].
  destruct (needsRepaint _ _); cbn; rewrite ?orb_true_r, ?orb_false_r; done.
Qed.

Lemma call_screen op s :
  Renderer.screen (renderer (this (call op s)))
  = Renderer.screen (renderer (this s)).
Proof.
  destruct op; open_state s; run_call;
    try match goal with |- context [foldl mergeEntry ?a ?l] =>
      destruct (foldl mergeEntry a l) as [[|] ?] end;
    reflexivity.
Qed.

Lemma calls_screen ops s :
  Renderer.screen (renderer (this (calls ops s)))
  = Renderer.screen (renderer (this s)).
Proof.
  induction ops as [|op ops IH] using rev_ind; [done|].
  by rewrite calls_snoc, call_screen.
Qed.

(** X1.  No operation of [IChart] draws: whatever calls are made, in
    whatever state, no frame is committed, [onDrawEnd] is not invoked,
    and the renderer's screen and pending batch are as before.  Drawing
    happens in animation frames only. *)
Theorem calls_never_draw (ops : list Op) (s : State) :
  trace (calls ops s) = trace s
  ∧ Renderer.screen (renderer (this (calls ops s)))
    = Renderer.screen (renderer (this s))
  ∧ Renderer.batch (renderer (this (calls ops s)))
    = Renderer.batch (renderer (this s)).
Proof.
  split_and!; [apply calls_trace|apply calls_screen|apply calls_batch].
Qed.

(** *** Runs *)

Lemma run_snoc steps st s : run (steps ++ [st]) s = step st (run steps s).
Proof. unfold run. by rewrite foldl_snoc. Qed.

Lemma step_betweenFrames st s : betweenFrames s -> betweenFrames (step st s).
Proof.
  destruct st; [apply call_betweenFrames|apply animationFrame_betweenFrames].
Qed.

Lemma run_betweenFrames steps s : betweenFrames s -> betweenFrames (run steps s).
Proof.
  intros Hs. induction steps as [|st steps IH] using rev_ind; [done|].
  rewrite run_snoc. by apply step_betweenFrames.
Qed.

(** A step leaves the trace alone, or it is a frame and appends one
    committed frame and one [onDrawEnd]. *)
Lemma step_trace st s :
  betweenFrames s ->
  trace (step st s) = trace s
  ∨ st = Frame
    ∧ trace (step st s)
      = trace s ++ [FrameCommitted (currentFrame (this s)); DrawEnd].
Proof.
  intros Hs. destruct st as [op|]; cbn [step].
  - left. apply call_trace.
  - destruct (shouldRedraw (this s)) eqn:Hf.
    + right. split; [done|]. by apply animationFrame_trace.
    + left. by rewrite animationFrame_idle.
Qed.

Lemma frames_snoc steps st :
  frames (steps ++ [st])
  = frames steps + match st with Frame => 1 | Called _ => 0 end.
Proof.
  unfold frames. rewrite List.filter_app, length_app. by destruct st.
Qed.

(** X2.  From construction on, through any interleaving of calls and
    animation frames, with an [onDrawEnd] that makes any calls on the chart
    and returns, at most one frame callback is queued, it is queued exactly
    when the in-flight flag is set, [onDrawEnd] has been invoked exactly
    once per committed frame, and no more frames have been committed than
    animation frames have run.  (An [onDrawEnd] that throws is outside the
    statement: the frame callback would end before it clears the flag.) *)
Theorem runs_keep_the_schedule (option : ChartOption.t) (s : State)
    (steps : list Step) :
  new option = Ok s ->
  frameRequests (run steps s)
  = (if shouldRedraw (this (run steps s)) then 1 else 0)
  ∧ frameRequests (run steps s) ≤ 1
  ∧ drawEnds (trace (run steps s)) = framesCommitted (trace (run steps s))
  ∧ framesCommitted (trace (run steps s)) ≤ frames steps.
Proof.
  intros Hnew.
  assert (betweenFrames s ∧ trace s = []) as [Hs Htr].
  { revert Hnew. unfold new.
    destruct (ChartOption.type option) as [[|]|]; cbn; intros [= <-];
      by repeat split. }
  assert (drawEnds (trace (run steps s)) = framesCommitted (trace (run steps s))
          ∧ framesCommitted (trace (run steps s)) ≤ frames steps) as [Hd Hc].
  { induction steps as [|st steps [IHd IHc]] using rev_ind.
    - cbn. by rewrite Htr.
    - rewrite run_snoc, frames_snoc.
      destruct (step_trace st (run steps s) (run_betweenFrames _ _ Hs))
        as [->|[-> ->]]; [split; [done|lia]|].
      rewrite drawEnds_app, framesCommitted_app. cbn. lia. }
  destruct (run_betweenFrames steps s Hs) as [Hq _].
  split_and!; [exact Hq| |exact Hd|exact Hc].
  rewrite Hq. destruct (shouldRedraw _); lia.
Qed.

Lemma runs_keep_the_schedule_witness :
  frameRequests
    (run [Called (UpdateData [Scenario.seriesA]); Frame; Frame;
          Called (Resize (Dimension.mk 10 10))]
         (Scenario.constructed [UpdateData [Scenario.seriesB]]))
  ≤ 1.
Proof.
  refine (proj1 (proj2
    (runs_keep_the_schedule
       (Scenario.svgOption [UpdateData [Scenario.seriesB]])
       (Scenario.constructed [UpdateData [Scenario.seriesB]])
       [Called (UpdateData [Scenario.seriesA]); Frame; Frame;
        Called (Resize (Dimension.mk 10 10))] _))).
  reflexivity.
Defined.

(** *** What a run keeps *)

(** A property of the chart object that every call, the draw and the
    clearing of the flag keep holds throughout a run. *)
Lemma run_keeps (P : t -> Prop) :
  (∀ op s, P (this s) -> P (this (call op s))) ->
  (∀ c,
     P c ->
     P (setSeriesLineView
          (SeriesLineView.internalOnlyDrawFrame
             (coordinator c) (metadataMap c) (renderer c) (seriesLineView c)).2
          (setRenderer
             (Renderer.flush
                (SeriesLineView.internalOnlyDrawFrame
                   (coordinator c) (metadataMap c) (renderer c)
                   (seriesLineView c)).1) c))) ->
  (∀ c, P c -> P (setShouldRedraw false c)) ->
  ∀ steps s, P (this s) -> P (this (run steps s)).
Proof.
  intros Hcall Hdraw Hclear.
  assert (∀ ops s, P (this s) -> P (this (calls ops s))) as Hcalls.
  { intros ops s Hs. induction ops as [|op ops IH] using rev_ind; [done|].
    rewrite calls_snoc. by apply Hcall. }
  assert (∀ s, P (this s) -> P (this (frameCallback s))) as Hframe.
  { intros s Hs. unfold frameCallback, redraw. cbn [this onThis].
    apply Hclear, Hcalls. cbn [this emit onThis]. by apply Hdraw. }
  assert (∀ n s, P (this s) -> P (this (Nat.iter n frameCallback s))) as Hiter.
  { intros n s Hs. induction n as [|n IH]; [done|]. cbn. by apply Hframe. }
  intros steps s Hs. induction steps as [|st steps IH] using rev_ind; [done|].
  rewrite run_snoc. destruct st as [op|]; cbn [step].
  - by apply Hcall.
  - unfold animationFrame. by apply Hiter.
Qed.

Lemma call_metadataMap op s :
  metadataMap (this (call op s))
  = match op with
    | UpdateMetadata m => m ∪ metadataMap (this s)
    | _ => metadataMap (this s)
    end.
Proof.
  destruct op; cbn [call]; rewrite ?updateMetadata_normal;
    open_state s; reflexivity.
Qed.

(** X3.  The metadata map of a chart only grows: no call, no frame and
    nothing [onDrawEnd] can do removes an id from it.  An id that was given
    metadata once has an entry for as long as the chart lives. *)
Theorem metadata_is_never_removed (steps : list Step) (s : State) :
  dom (metadataMap (this s)) ⊆ dom (metadataMap (this (run steps s))).
Proof.
  apply (run_keeps (fun c => dom (metadataMap (this s)) ⊆ dom (metadataMap c))).
  - intros op s' Hs'. rewrite call_metadataMap.
    destruct op; try exact Hs'. rewrite dom_union. set_solver.
  - intros c Hc. by destruct c.
  - intros c Hc. by destruct c.
  - done.
Qed.

(** X4.  [updateMetadata] with an empty map changes neither the map nor the
    paint-dirty flag and is exactly a [scheduleRedraw]: it still requests a
    frame when none is in flight. *)
Theorem updateMetadata_empty (s : State) :
  updateMetadata ∅ s = scheduleRedraw s
  ∧ (shouldRedraw (this s) = false ->
     frameRequests (updateMetadata ∅ s) = S (frameRequests s)).
Proof.
  assert (updateMetadata ∅ s = scheduleRedraw s) as Heq.
  { rewrite updateMetadata_normal. unfold needsRepaint.
    rewrite map_to_list_empty, (left_id_L ∅ (∪)). cbn [existsb].
    rewrite orb_false_r. by destruct s as [[? [] ? ? ? ?] ? ?]. }
  split; [exact Heq|]. intros Hf. rewrite Heq. unfold scheduleRedraw.
  by rewrite Hf.
Qed.

Lemma updateMetadata_empty_witness :
  frameRequests (updateMetadata ∅ Scenario.idle)
  = S (frameRequests Scenario.idle).
Proof.
  apply (proj2 (updateMetadata_empty Scenario.idle)). reflexivity.
Defined.

Lemma needsRepaint_same (m old : DataSeriesMetadataMap) :
  (∀ id md, m !! id = Some md ->
     strictEq (DataSeriesMetadata.opacity md) (DataSeriesMetadata.opacity md)
     = true) ->
  needsRepaint m (m ∪ old) = false.
Proof.
  intros Hnan. destruct (needsRepaint m (m ∪ old)) eqn:Hr; [|done].
  apply needsRepaint_true in Hr as (id & md & Hid & Hr).
  rewrite (lookup_union_Some_l _ _ _ _ Hid) in Hr. cbn in Hr.
  unfold strictNeq in Hr. rewrite (Hnan id md Hid) in Hr.
  rewrite !bool_decide_eq_false_2 in Hr by (intros Hne; by apply Hne).
  discriminate.
Qed.

Lemma union_again (m old : DataSeriesMetadataMap) : m ∪ (m ∪ old) = m ∪ old.
Proof.
  apply map_eq. intros id. rewrite !lookup_union.
  by destruct (m !! id), (old !! id).
Qed.

(** X5.  Passing the same metadata map a second time changes nothing: the
    chart, its paint-dirty flag included, is as after the first call.  This
    needs every opacity in the map to be [===] to itself, that is, not
    NaN. *)
Theorem updateMetadata_again (m : DataSeriesMetadataMap) (s : State) :
  (∀ id md, m !! id = Some md ->
     strictEq (DataSeriesMetadata.opacity md) (DataSeriesMetadata.opacity md)
     = true) ->
  updateMetadata m (updateMetadata m s) = updateMetadata m s.
Proof.
  intros Hnan. rewrite (updateMetadata_normal m (updateMetadata m s)).
  rewrite (updateMetadata_normal m s).
  destruct s as [[rd [d p l] co mm cb [|]] n tr];
    cbn [scheduleRedraw this shouldRedraw frameRequests trace renderer
         seriesLineView coordinator metadataMap callbacks setShouldRedraw
         SeriesLineView.data SeriesLineView.paintDirty
         SeriesLineView.layoutRect];
    by rewrite needsRepaint_same, union_again, orb_false_r.
Qed.

Lemma updateMetadata_again_witness :
  updateMetadata Scenario.bothBlack
    (updateMetadata Scenario.bothBlack (Scenario.constructed []))
  = updateMetadata Scenario.bothBlack (Scenario.constructed []).
Proof.
  apply updateMetadata_again. intros id md Hid.
  unfold Scenario.bothBlack in Hid.
  apply lookup_insert_Some in Hid as [[_ <-]|[_ Hid]]; [reflexivity|].
  apply lookup_singleton_Some in Hid as [_ <-]. reflexivity.
Defined.

(** X6.  Of two calls of the same setter in a row only the second counts:
    for [updateData], [updateViewBox], [resize], [setXScaleType] and
    [setYScaleType] the chart after both calls is the chart after the
    second alone, scheduling included. *)
Theorem second_call_wins (s : State) :
  (∀ d1 d2, updateData d2 (updateData d1 s) = updateData d2 s)
  ∧ (∀ e1 e2, updateViewBox e2 (updateViewBox e1 s) = updateViewBox e2 s)
  ∧ (∀ dim1 dim2, resize dim2 (resize dim1 s) = resize dim2 s)
  ∧ (∀ t1 t2, setXScaleType t2 (setXScaleType t1 s) = setXScaleType t2 s)
  ∧ (∀ t1 t2, setYScaleType t2 (setYScaleType t1 s) = setYScaleType t2 s).
Proof.
  split_and!; intros ? ?; open_state s; reflexivity.
Qed.

(** X7.  Calls of two different operations commute: made in either order
    they leave the same chart, so within one tick the order in which the
    host updates data, metadata, view box, size and scales does not matter
    for the frame that follows. *)
Theorem different_operations_commute (op1 op2 : Op) (s : State) :
  operation op1 ≠ operation op2 ->
  call op1 (call op2 s) = call op2 (call op1 s).
Proof.
  destruct op1, op2; cbn [operation]; intros Hne; try done;
    cbn [call]; rewrite ?updateMetadata_normal;
    destruct s as [[rd [d p l] co mm cb [|]] n tr];
    cbn; rewrite ?orb_true_r; reflexivity.
Qed.

Lemma different_operations_commute_witness :
  call (UpdateData [Scenario.seriesB])
       (call (UpdateMetadata {[ "a" := Scenario.red "a" ]}) Scenario.idle)
  = call (UpdateMetadata {[ "a" := Scenario.red "a" ]})
         (call (UpdateData [Scenario.seriesB]) Scenario.idle).
Proof.
  apply different_operations_commute. discriminate.
Defined.

(** X8.  From construction on, through any run, the coordinator's DOM rect,
    the renderer's surface and the series view's layout are one and the
    same rect, at the origin: [resize] is the only writer of the three and
    writes them together. *)
Theorem rects_stay_in_agreement (option : ChartOption.t) (s : State)
    (steps : list Step) :
  new option = Ok s -> rectsAgree (run steps s).
Proof.
  intros Hnew.
  apply (run_keeps (fun c => rectsAgree (mkState c 0 []))).
  - intros op s' [dim (Hc & Hr & Hv)]. cbn [this] in *.
    destruct op; cbn [call]; rewrite ?updateMetadata_normal;
      destruct s' as [[rd [d p l] co mm cb [|]] n tr];
      first [ by exists dim | by eexists ].
  - intros c [dim (Hc & Hr & Hv)]. exists dim. by destruct c as [[] [] ? ? ? ?].
  - intros c [dim (Hc & Hr & Hv)]. exists dim. by destruct c.
  - revert Hnew. unfold new.
    destruct (ChartOption.type option) as [[|]|]; cbn; intros [= <-];
      by eexists.
Qed.

Lemma rects_stay_in_agreement_witness :
  rectsAgree
    (run [Called (Resize (Dimension.mk 10 10)); Frame;
          Called (UpdateViewBox Scenario.wideBox)]
         (Scenario.constructed [])).
Proof.
  apply (rects_stay_in_agreement (Scenario.svgOption [])). reflexivity.
Defined.

(** *** Metadata objects with undefined values *)

Lemma elem_of_definedEntries l id md :
  (id, md) ∈ definedEntries l ↔ (id, Some md) ∈ l.
Proof.
  unfold definedEntries. rewrite list_elem_of_omap. split.
  - intros ([id' [md'|]] & Hin & Heq); cbn in Heq; [|done].
    by injection Heq as -> ->.
  - intros Hin. by exists (id, Some md).
Qed.

Lemma definedEntries_keys l id : id ∈ (definedEntries l).*1 -> id ∈ l.*1.
Proof.
  intros ([id' md] & -> & Hin)%list_elem_of_fmap.
  apply elem_of_definedEntries in Hin.
  by apply (list_elem_of_fmap_2 fst) in Hin.
Qed.

Lemma definedEntries_NoDup l : NoDup l.*1 -> NoDup (definedEntries l).*1.
Proof.
  induction l as [|[id [md|]] l IH]; cbn; intros Hnd; [done| |].
  - apply NoDup_cons in Hnd as [Hid Hnd]. apply NoDup_cons. split; [|by apply IH].
    intros Hin. by apply Hid, definedEntries_keys.
  - apply NoDup_cons in Hnd as [_ Hnd]. by apply IH.
Qed.

(** The [forEach] over entries with distinct keys: it throws exactly when
    some entry is thrown on, and otherwise merges the defined entries. *)
Lemma forEachRaw_spec (l : list (string * option DataSeriesMetadata.t)) :
  NoDup l.*1 ->
  ∀ (b : bool) (mm old : DataSeriesMetadataMap),
    (∀ e, e ∈ l -> mm !! e.1 = old !! e.1) ->
    forEachRaw (b, mm) l
    = if existsb (throwsOn old) l
      then Throw (TypeError "metadata")
      else Ok (b || existsb (rawEntryNeedsRepaint old) l,
               list_to_map (definedEntries l) ∪ mm).
Proof.
  induction l as [|[id o] l IH]; intros Hnd b mm old Hm.
  - cbn. by rewrite orb_false_r, (left_id_L ∅ (∪)).
  - rewrite fmap_cons in Hnd. apply NoDup_cons in Hnd as [Hid Hnd].
    pose proof (Hm (id, o) ltac:(left)) as Hid0. cbn [fst] in Hid0, Hid.
    cbn [forEachRaw existsb]. unfold mergeEntryRaw, throwsOn at 1,
      rawEntryNeedsRepaint at 1. cbn [fst snd]. rewrite Hid0.
    destruct o as [md|].
    + cbn [bind orb].
      rewrite (IH Hnd _ (<[id:=md]> mm) old).
      2:{ intros e He. rewrite lookup_insert_ne; [apply Hm; by right|].
          intros Heq. apply Hid. rewrite Heq. by apply list_elem_of_fmap_2. }
      destruct (existsb (throwsOn old) l); [done|]. f_equal. f_equal.
      * destruct (entryNeedsRepaint (old !! id) md), b; reflexivity.
      * cbn [definedEntries omap list_omap fmap option_fmap option_map fst snd].
        fold (definedEntries l). cbn [list_to_map foldr fst snd uncurry].
        rewrite <- insert_union_l. symmetry. apply insert_union_r.
        apply not_elem_of_list_to_map_1. intros Hin.
        by apply Hid, definedEntries_keys.
    + destruct (old !! id) as [existing|]; [done|].
      destruct (bool_decide (id ∈ objectPrototypeNames)); [done|].
      cbn [bind orb].
      rewrite (IH Hnd true mm old) by (intros e He; apply Hm; by right).
      destruct (existsb (throwsOn old) l); [done|].
      by rewrite orb_true_r.
Qed.

Lemma definedEntries_map_to_list (m : gmap string (option DataSeriesMetadata.t)) :
  list_to_map (definedEntries (map_to_list m)) = omap id m.
Proof.
  apply map_eq. intros i. apply option_eq. intros md.
  rewrite <- elem_of_list_to_map
    by apply definedEntries_NoDup, NoDup_fst_map_to_list.
  rewrite elem_of_definedEntries, elem_of_map_to_list, lookup_omap.
  destruct (m !! i) as [[md'|]|]; cbn; naive_solver.
Qed.

(** [updateMetadataRaw] as one step. *)
Lemma updateMetadataRaw_spec (m : gmap string (option DataSeriesMetadata.t))
    (s : State) :
  updateMetadataRaw m s
  = if existsb (throwsOn (metadataMap (this s))) (map_to_list m)
    then Throw (TypeError "metadata")
    else Ok (scheduleRedraw
      (mkState
         (mk (renderer (this s))
             (SeriesLineView.mk
                (SeriesLineView.data (seriesLineView (this s)))
                (SeriesLineView.paintDirty (seriesLineView (this s))
                 || existsb (rawEntryNeedsRepaint (metadataMap (this s)))
                            (map_to_list m))
                (SeriesLineView.layoutRect (seriesLineView (this s))))
             (coordinator (this s))
             (omap id m ∪ metadataMap (this s))
             (callbacks (this s))
             (shouldRedraw (this s)))
         (frameRequests s) (trace s))).
Proof.
  unfold updateMetadataRaw.
  rewrite (forEachRaw_spec _ (NoDup_fst_map_to_list m) false
             (metadataMap (this s)) (metadataMap (this s))) by done.
  destruct (existsb (throwsOn _) _); [done|]. cbn [bind orb fst snd].
  rewrite definedEntries_map_to_list.
  destruct s as [[rd [d p l] co mm cb f] n tr].
  destruct (existsb _ _); cbn; rewrite ?orb_true_r, ?orb_false_r; done.
Qed.

Lemma throwsOn_true (m : gmap string (option DataSeriesMetadata.t))
    (old : DataSeriesMetadataMap) :
  existsb (throwsOn old) (map_to_list m) = true
  ↔ ∃ id, m !! id = Some None
          ∧ (is_Some (old !! id) ∨ id ∈ objectPrototypeNames).
Proof.
  rewrite existsb_exists. split.
  - intros ([id o] & Hin & Ht). apply list_elem_of_In, elem_of_map_to_list in Hin.
    unfold throwsOn in Ht. cbn [fst snd] in Ht.
    destruct o as [md|]; [done|]. exists id. split; [done|].
    destruct (old !! id) as [existing|] eqn:Ho; [left; by eexists|].
    right. by apply bool_decide_eq_true_1 in Ht.
  - intros (id & Hid & Ho). exists (id, None). split.
    + by apply list_elem_of_In, elem_of_map_to_list.
    + unfold throwsOn. cbn [fst snd].
      destruct (old !! id) as [existing|] eqn:Hold; [done|].
      destruct Ho as [[? ?]|Ho]; [done|]. by apply bool_decide_eq_true_2.
Qed.

(** X9.  When the metadata object holds [undefined] for an id the chart
    already has an entry for, or for an id that names a member of
    [Object.prototype] ([toString], say), [updateMetadata] throws a
    TypeError: it reads [metadata.color] of [undefined].  When every
    undefined value belongs to an id that is unknown to the chart and names
    no such member, and no entry is or was stored under [__proto__], it
    returns: the defined entries are merged, the undefined ones leave their
    ids without an entry, any undefined value marks the view paint-dirty,
    and the redraw is scheduled. *)
Theorem undefined_metadata_outcome
    (m : gmap string (option DataSeriesMetadata.t)) (s : State) :
  ((∃ id,
      m !! id = Some None
      ∧ (is_Some (metadataMap (this s) !! id) ∨ id ∈ objectPrototypeNames)) ->
   updateMetadataRaw m s = Throw (TypeError "metadata"))
  ∧ (prototypeKept m -> prototypeKept (metadataMap (this s)) ->
     (∀ id, m !! id = Some None ->
        metadataMap (this s) !! id = None ∧ id ∉ objectPrototypeNames) ->
     ∃ s', updateMetadataRaw m s = Ok s'
       ∧ metadataMap (this s') = omap id m ∪ metadataMap (this s)
       ∧ (∀ id, m !! id = Some None -> metadataMap (this s') !! id = None)
       ∧ ((∃ id, m !! id = Some None) ->
          SeriesLineView.paintDirty (seriesLineView (this s')) = true)
       ∧ shouldRedraw (this s') = true).
Proof.
  rewrite updateMetadataRaw_spec. split.
  - intros Hthrow. apply throwsOn_true in Hthrow. by rewrite Hthrow.
  - intros _ _ Hfresh.
    destruct (existsb (throwsOn _) _) eqn:Ht.
    { apply throwsOn_true in Ht as (i & Hi & Ho).
      destruct (Hfresh i Hi) as [Hnone Hplain].
      destruct Ho as [[existing Ho]|Ho]; [|done].
      rewrite Hnone in Ho. discriminate. }
    eexists. split; [reflexivity|].
    destruct s as [[rd [d p l] co mm cb f] n tr]. cbn [this metadataMap] in *.
    split_and!.
    + by destruct f.
    + intros i Hi.
      assert ((omap id m ∪ mm) !! i = None) as Hnone.
      { rewrite lookup_union, lookup_omap, Hi, (proj1 (Hfresh i Hi)). done. }
      by destruct f.
    + intros [i Hi].
      assert (existsb (rawEntryNeedsRepaint mm) (map_to_list m) = true) as ->.
      { apply existsb_exists. exists (i, None). split; [|done].
        by apply list_elem_of_In, elem_of_map_to_list. }
      rewrite orb_true_r. by destruct f.
    + by destruct f.
Qed.

(** On the idle chart, which has entries for a and b: [undefined] for a
    throws, [undefined] for [toString] throws, [undefined] for the unknown
    c is accepted. *)
Lemma undefined_metadata_outcome_witness :
  updateMetadataRaw {[ "a" := None ]} Scenario.idle
  = Throw (TypeError "metadata")
  ∧ updateMetadataRaw {[ "toString" := None ]} Scenario.idle
    = Throw (TypeError "metadata")
  ∧ ∃ s', updateMetadataRaw {[ "c" := None ]} Scenario.idle = Ok s'
      ∧ SeriesLineView.paintDirty (seriesLineView (this s')) = true.
Proof.
  split_and!.
  - apply (proj1 (undefined_metadata_outcome {[ "a" := None ]} Scenario.idle)).
    exists "a". split; [reflexivity|]. left. vm_compute. eauto.
  - apply (proj1 (undefined_metadata_outcome {[ "toString" := None ]}
                    Scenario.idle)).
    exists "toString". split; [reflexivity|]. right.
    apply (bool_decide_eq_true_1 _). vm_compute. reflexivity.
  - destruct (proj2 (undefined_metadata_outcome {[ "c" := None ]} Scenario.idle))
      as (s' & Hs' & _ & _ & Hdirty & _).
    + reflexivity.
    + reflexivity.
    + intros id Hid. apply lookup_singleton_Some in Hid as [<- _].
      split; [reflexivity|].
      apply (bool_decide_eq_true_1 _). vm_compute. reflexivity.
    + exists s'. split; [exact Hs'|]. apply Hdirty. by exists "c".
Defined.

(** X10.  On a metadata object without undefined values, the only ones its
    type admits, [updateMetadata] never throws, and the two descriptions of
    it agree. *)
Theorem typed_metadata_never_throws (m : DataSeriesMetadataMap) (s : State) :
  updateMetadataRaw (Some <$> m) s = Ok (updateMetadata m s).
Proof.
  rewrite updateMetadataRaw_spec, updateMetadata_normal.
  destruct (existsb (throwsOn _) _) eqn:Ht.
  { apply throwsOn_true in Ht as (i & Hi & _).
    rewrite lookup_fmap in Hi. by destruct (m !! i). }
  assert (omap id (Some <$> m) = m) as ->.
  { apply map_eq. intros i. rewrite lookup_omap, lookup_fmap.
    by destruct (m !! i). }
  assert (existsb (rawEntryNeedsRepaint (metadataMap (this s)))
                  (map_to_list (Some <$> m))
          = needsRepaint m (metadataMap (this s))) as ->; [|done].
  apply Bool.eq_iff_eq_true. rewrite needsRepaint_true, existsb_exists. split.
  - intros ([i o] & Hin & Hr).
    apply list_elem_of_In, elem_of_map_to_list in Hin.
    rewrite lookup_fmap in Hin. destruct (m !! i) as [md|] eqn:Hi; [|done].
    injection Hin as <-. by exists i, md.
  - intros (i & md & Hi & Hr). exists (i, Some md). split; [|done].
    apply list_elem_of_In, elem_of_map_to_list.
    by rewrite lookup_fmap, Hi.
Qed.
End ChartExtras.

(** ** More on the component: what it sends to its chart *)

Module ComponentExtras.
Import LineChartComponent ComponentProps.

Section WithImports.
Context `{Imports}.

Ltac open_component c :=
  destruct c as [? ? [?|] ? ? ? ? ? ? ? ? [?|] [?|] [|] [|] [|] [|] [|]].

Ltac run_hooks :=
  cbv beta iota zeta delta
    [updateProp ngOnChanges onViewExtentChanged onViewExtentReset
     onViewResize ngAfterViewInit ngOnDestroy initializeChart
     readAndUpdateDomDimensions
     shouldResetViewExtent getDefaultViewExtent tell send settled
     requiredMetadata klass params received
     preferredRendererType seriesData defaultViewExtent seriesMetadataMap
     forceUseWorkerIfCanvas xScaleType yScaleType xScale yScale viewExtent
     domDimensions lineChart dataExtent isDataUpdated isMetadataUpdated
     isViewExtentUpdated isDefaultViewExtentUpdated
     maybeSetViewExtentToDefault
     set_seriesData set_defaultViewExtent set_seriesMetadataMap
     set_xScaleType set_yScaleType set_xScale set_yScale set_viewExtent
     set_domDimensions
     set_lineChart set_dataExtent set_isDataUpdated set_isMetadataUpdated
     set_isViewExtentUpdated set_isDefaultViewExtentUpdated
     set_maybeSetViewExtentToDefault
     SimpleChanges.xScaleType SimpleChanges.yScaleType
     SimpleChanges.seriesData SimpleChanges.defaultViewExtent
     SimpleChanges.seriesMetadataMap SimpleChanges.none orb andb negb].

Lemma requiredMetadata_foldl (m : DataSeriesMetadataMap)
    (l : list DataSeries.t) (acc : gmap string (option DataSeriesMetadata.t))
    (key : string) :
  foldl (fun metadata s =>
           <[DataSeries.id s := m !! DataSeries.id s]> metadata) acc l !! key
  = if decide (key ∈ DataSeries.id <$> l) then Some (m !! key) else acc !! key.
Proof.
  revert acc. induction l as [|s l IH]; intros acc; cbn [foldl].
  - rewrite fmap_nil. by rewrite decide_False by apply not_elem_of_nil.
  - rewrite IH, fmap_cons. destruct (decide (key ∈ DataSeries.id <$> l)) as [Hin|Hout].
    + by rewrite decide_True by (by right).
    + destruct (decide (key = DataSeries.id s)) as [->|Hne].
      * rewrite decide_True by left. by rewrite lookup_insert_eq.
      * rewrite lookup_insert_ne by done.
        rewrite decide_False; [done|]. by intros [?|?]%elem_of_cons.
Qed.

Lemma covered_lookup (c : t) (series : DataSeries.t) :
  covered c = true -> series ∈ seriesData c ->
  is_Some (seriesMetadataMap c !! DataSeries.id series).
Proof.
  unfold covered. rewrite forallb_forall. intros Hc Hin.
  apply list_elem_of_In, Hc in Hin. by apply bool_decide_eq_true_1 in Hin.
Qed.

Lemma plainIds_lookup (c : t) (series : DataSeries.t) :
  plainIds c = true -> series ∈ seriesData c ->
  DataSeries.id series ∉ Chart.objectPrototypeNames.
Proof.
  unfold plainIds. rewrite forallb_forall. intros Hc Hin.
  apply list_elem_of_In, Hc in Hin. by apply bool_decide_eq_true_1 in Hin.
Qed.

(** With metadata for every series the object [updateProp] sends holds no
    [undefined]. *)
Lemma covered_defined (c : t) :
  covered c = true -> defined (CallUpdateMetadata (requiredMetadata c)).
Proof.
  intros Hc key. unfold requiredMetadata. rewrite requiredMetadata_foldl.
  destruct (decide (key ∈ DataSeries.id <$> seriesData c)) as [Hin|Hout];
    [|by rewrite lookup_empty].
  apply list_elem_of_fmap in Hin as (series & -> & Hin).
  destruct (covered_lookup c series Hc Hin) as [md ->]. done.
Qed.

(** A [Chart] in the page's thread returns from defined calls, whatever it
    holds. *)
Lemma defined_returns (calls : list Call) (s : Chart.State) :
  Forall defined calls -> ∃ s', InProcess.replay calls s = Ok s'.
Proof.
  intros Hd. revert s. induction Hd as [|call calls Hc _ IH]; intros s;
    [by eexists|].
  cbn [InProcess.replay].
  assert (∃ s1, InProcess.receive call s = Ok s1) as [s1 ->].
  { destruct call; cbn [InProcess.receive]; try (by eexists).
    rewrite ChartExtras.updateMetadataRaw_spec.
    destruct (existsb _ _) eqn:Ht; [|by eexists].
    apply ChartExtras.throwsOn_true in Ht as (key & Hkey & _).
    by destruct (Hc key). }
  cbn [bind]. apply IH.
Qed.

(** X11.  For series ids that name no member of [Object.prototype], the
    metadata object [updateProp] sends has exactly the ids of the series in
    [seriesData] as keys, each with the entry the component's metadata map
    holds for it, or [undefined] when it holds none.  Metadata of series
    that are not in the data is not sent. *)
Theorem requiredMetadata_lookup (c : t) (key : string) :
  plainIds c = true ->
  requiredMetadata c !! key
  = if decide (key ∈ DataSeries.id <$> seriesData c)
    then Some (seriesMetadataMap c !! key)
    else None.
Proof.
  intros _. unfold requiredMetadata. rewrite requiredMetadata_foldl.
  by destruct (decide _).
Qed.

(** What [updateProp] sends, when the chart exists. *)
Lemma updateProp_received (c : t) (h : Handle) :
  lineChart c = Some h ->
  lineChart (updateProp c)
  = Some {| klass := klass h; params := params h;
            received :=
              received h
              ++ (if isMetadataUpdated c || isDataUpdated c
                  then [CallUpdateMetadata (requiredMetadata c)] else [])
              ++ (if isDataUpdated c
                  then [CallUpdateData (seriesData c)] else [])
              ++ (if isDefaultViewExtentUpdated c || isViewExtentUpdated c
                     || maybeSetViewExtentToDefault c
                  then [CallUpdateViewBox (viewExtent (updateProp c))]
                  else []) |}.
Proof.
  intros Hh. open_component c; try discriminate Hh; injection Hh as ->;
    run_hooks; cbn [app]; rewrite <- ?app_assoc, ?app_nil_r; cbn [app];
    try reflexivity; by destruct h.
Qed.

(** X12.  When it is to send metadata only with every series covered by
    the metadata map and named unlike the members of [Object.prototype],
    [updateProp] sends at most three calls and always in the order
    metadata, data, view box.  Data never go to the chart without the
    metadata of their series right before them, the view box sent is the one
    the component holds afterwards, and a [Chart] in the page's thread
    returns from every one of the calls, whatever it holds: the hook runs
    to its end. *)
Theorem updateProp_sends_in_order (c : t) (h : Handle) :
  lineChart c = Some h ->
  (isMetadataUpdated c || isDataUpdated c = true ->
   covered c = true ∧ plainIds c = true) ->
  ∃ h' sent,
    lineChart (updateProp c) = Some h'
    ∧ klass h' = klass h ∧ params h' = params h
    ∧ received h' = received h ++ sent
    ∧ sent
      = (if isMetadataUpdated c || isDataUpdated c
         then [CallUpdateMetadata (requiredMetadata c)] else [])
        ++ (if isDataUpdated c then [CallUpdateData (seriesData c)] else [])
        ++ (if isDefaultViewExtentUpdated c || isViewExtentUpdated c
               || maybeSetViewExtentToDefault c
            then [CallUpdateViewBox (viewExtent (updateProp c))] else [])
    ∧ ∀ s, ∃ s', InProcess.replay sent s = Ok s'.
Proof.
  intros Hh Hcov. eexists _, _. split; [by apply updateProp_received|].
  split_and!; try reflexivity.
  intros s. apply defined_returns. rewrite !Forall_app. split_and!;
    match goal with
    | |- Forall _ (if ?b then _ else _) => destruct b eqn:Hb
    end; repeat constructor.
  apply covered_defined, Hcov. reflexivity.
Qed.

(** X13.  An [updateProp] that sends metadata only with every series
    covered, so that the chart returns from the call, is idempotent: run
    again right away it sends nothing and changes nothing, with or without
    a chart. *)
Theorem updateProp_idempotent (c : t) :
  (isMetadataUpdated c || isDataUpdated c = true -> covered c = true) ->
  updateProp (updateProp c) = updateProp c.
Proof. intros _. open_component c; run_hooks; reflexivity. Qed.

(** X14.  On a settled component a change-detection pass that changes none
    of the five tracked inputs (a new [tooltipTemplate], say) leaves the
    component as it is and sends nothing to the chart. *)
Theorem untracked_change_is_ignored (c : t) :
  settled c -> ngOnChanges SimpleChanges.none c = c.
Proof.
  intros (Hl & Hdu & Hmu & Hvu & Hdvu & Hms). destruct Hl as [h Hh].
  open_component c; try discriminate; run_hooks;
    match goal with |- context [areExtentsEqual ?a ?b] =>
      destruct (areExtentsEqual a b) end; reflexivity.
Qed.

(** X15.  [initializeChart] creates the chart once: with a chart it does
    nothing, without one it creates a chart that has received no call yet,
    of the renderer type [getRendererType] answers, with the component's
    scale types and the measured size of the main element.  The chart runs
    in a worker exactly when that type is WEBGL and the worker is forced or
    offscreen canvases are supported, so never for SVG.  The option record
    it builds is one [Chart]'s constructor accepts. *)
Theorem initializeChart_once (c : t) :
  (∀ h, lineChart c = Some h -> initializeChart c = c)
  ∧ (lineChart c = None ->
     ∃ h, lineChart (initializeChart c) = Some h
       ∧ received h = []
       ∧ ChartOption.type (params h)
         = Recognized (getRendererType (preferredRendererType c))
       ∧ ChartOption.xScaleType (params h) = xScaleType c
       ∧ ChartOption.yScaleType (params h) = yScaleType c
       ∧ ChartOption.domDimension (params h) = clientMain
       ∧ (klass h = WorkerChart
          ↔ getRendererType (preferredRendererType c) = WEBGL
            ∧ (forceUseWorkerIfCanvas c = true
               ∨ isOffscreenCanvasSupported = true))
       ∧ ∃ s, Chart.new (params h) = Ok s).
Proof.
  split.
  - intros h Hh. unfold initializeChart. by rewrite Hh.
  - intros Hnone. unfold initializeChart. rewrite Hnone.
    destruct c as [p ? ? ? force ? ? ? ? ? ? ? ? ? ? ? ? ?].
    cbn [preferredRendererType forceUseWorkerIfCanvas xScaleType yScaleType
         readAndUpdateDomDimensions set_domDimensions set_lineChart lineChart
         domDimensions main].
    eexists. split; [reflexivity|]. cbn [received params klass].
    destruct (getRendererType p), force, isOffscreenCanvasSupported;
      cbn; split_and!; try done; try (by eexists);
      (split;
       [ intros Hk; first [discriminate Hk | split; [reflexivity|auto]]
       | intros [Hw [Hf|Hf]]; first [discriminate | reflexivity] ]).
Qed.


(** *** The chart of a component over its life *)

Lemma extends_tell (h : Handle) (call : Call) (c : t) :
  extends h c -> extends h (tell call c).
Proof.
  intros [sent Hc]. unfold tell. rewrite Hc. exists (sent ++ [call]).
  destruct c. cbn. by rewrite app_assoc.
Qed.

Lemma extends_updateProp (h : Handle) (c : t) :
  extends h c -> extends h (updateProp c).
Proof.
  intros [sent Hc]. unfold extends. rewrite (updateProp_received c _ Hc).
  eexists. cbn [klass params received]. by rewrite <- app_assoc.
Qed.

(** Assigning a field other than [lineChart] leaves the chart alone. *)
Ltac keep_chart :=
  repeat first
    [ assumption
    | apply extends_updateProp
    | apply extends_tell
    | match goal with
      | |- extends ?h (?f ?v ?c) => change (extends h c)
      end ].

Lemma extends_assign (h : Handle) (ic : InputChange) (c : t) :
  extends h c -> extends h (assign ic c).
Proof.
  intros Hc. destruct ic as [[?|] [?|] [?|] [?|] [?|]];
    unfold assign; cbn [from_option newSeriesData newSeriesMetadataMap
                        newDefaultViewExtent newXScaleType newYScaleType];
    keep_chart.
Qed.

Lemma extends_ngOnChanges (h : Handle) (changes : SimpleChanges.t) (c : t) :
  extends h c -> extends h (ngOnChanges changes c).
Proof.
  intros Hc. destruct changes as [[|] [|] [|] [|] [?|]];
    unfold ngOnChanges;
    cbn [SimpleChanges.xScaleType SimpleChanges.yScaleType
         SimpleChanges.seriesData SimpleChanges.defaultViewExtent
         SimpleChanges.seriesMetadataMap];
    keep_chart.
Qed.

Lemma extends_fire (h : Handle) (hook : Hook) (c : t) :
  extends h c -> extends h (fire hook c).
Proof.
  intros Hc. destruct hook; cbn [fire].
  - by apply extends_ngOnChanges, extends_assign.
  - unfold ngAfterViewInit, initializeChart.
    destruct Hc as [sent Hc]. rewrite Hc. apply extends_updateProp.
    by exists sent.
  - unfold onViewExtentChanged. keep_chart.
  - unfold onViewExtentReset. keep_chart.
  - unfold onViewResize, readAndUpdateDomDimensions.
    destruct Hc as [sent Hc]. rewrite Hc.
    assert (extends h c) by (by exists sent). keep_chart.
  - unfold ngOnDestroy. keep_chart.
Qed.

Lemma fireAll_snoc hooks hook c :
  fireAll (hooks ++ [hook]) c = fire hook (fireAll hooks c).
Proof. unfold fireAll. by rewrite foldl_snoc. Qed.

(** X17.  Once created, the chart of a component is never replaced and
    never let go of, whatever binding passes, lifecycle hooks and template
    events follow: it stays the chart of the same class and construction
    option, and the calls it has received only grow at the end.
    [ngOnDestroy] is no exception; hooks that fire after it still call the
    disposed chart. *)
Theorem chart_is_never_replaced (hooks : list Hook) (c : t) (h : Handle) :
  lineChart c = Some h ->
  ∃ sent, lineChart (fireAll hooks c)
          = Some {| klass := klass h; params := params h;
                    received := received h ++ sent |}.
Proof.
  intros Hc. assert (extends h c) as He.
  { exists []. rewrite Hc, app_nil_r. by destruct h. }
  clear Hc. induction hooks as [|hook hooks IH] using rev_ind; [done|].
  rewrite fireAll_snoc. by apply extends_fire.
Qed.

(** *** The view box the chart knows *)

Ltac split_imports :=
  repeat match goal with
  | |- context [areExtentsEqual ?a ?b] => destruct (areExtentsEqual a b)
  | |- context [existsb ?f ?l] => destruct (existsb f l)
  end.

Ltac in_sync Hsync :=
  split;
  [ split_and!; eauto
  | eexists; split; [reflexivity|]; cbn [received]; unfold viewBoxSent;
    rewrite ?foldl_app; cbn [foldl]; first [reflexivity | exact Hsync] ].

(** Opens a settled component whose chart is in sync: the flags are
    clear, the chart is there, and the two optional extents are split. *)
Ltac open_synced c Hc Hsync :=
  let Hl := fresh in let Hdu := fresh in let Hmu := fresh in
  let Hvu := fresh in let Hdvu := fresh in let Hms := fresh in
  let h := fresh "h" in let Hh := fresh in
  destruct Hc as [(Hl & Hdu & Hmu & Hvu & Hdvu & Hms) (h & Hh & Hsync)];
  clear Hl;
  destruct c as [? ? [?|] ? ? ? ? ? ? ? ? ? [?|] ? ? ? ? ?];
  cbn [lineChart isDataUpdated isMetadataUpdated isViewExtentUpdated
       isDefaultViewExtentUpdated maybeSetViewExtentToDefault viewExtent]
    in Hdu, Hmu, Hvu, Hdvu, Hms, Hh, Hsync;
  subst; destruct h as [? ? ?]; cbn [received] in Hsync;
  unfold viewBoxSent in Hsync.

Lemma sync_ngOnChanges (changes : SimpleChanges.t) (c : t) :
  settled c ∧ viewBoxInSync c ->
  settled (ngOnChanges changes c) ∧ viewBoxInSync (ngOnChanges changes c).
Proof.
  intros Hc. open_synced c Hc Hsync;
    destruct changes as [[|] [|] [|] [|] [?|]];
    run_hooks; split_imports; in_sync Hsync.
Qed.

Lemma sync_assign (ic : InputChange) (c : t) :
  settled c ∧ viewBoxInSync c ->
  settled (assign ic c) ∧ viewBoxInSync (assign ic c).
Proof.
  intros [Hs Hy]. destruct ic as [[?|] [?|] [?|] [?|] [?|]];
    destruct c; split; first [exact Hs | exact Hy].
Qed.

Lemma sync_fire (hook : Hook) (c : t) :
  settled c ∧ viewBoxInSync c ->
  settled (fire hook c) ∧ viewBoxInSync (fire hook c).
Proof.
  intros Hc. destruct hook as [ic| |extent| | |]; cbn [fire];
    [by apply sync_ngOnChanges, sync_assign|..];
    open_synced c Hc Hsync; run_hooks; in_sync Hsync.
Qed.

Lemma awaits_init (c : t) :
  awaitsChart c ->
  settled (ngAfterViewInit c) ∧ viewBoxInSync (ngAfterViewInit c).
Proof.
  intros [Hnone Hv].
  destruct c as [? ? dv ? ? ? ? ? ? ? ? ? de du mu ? dvu ms];
    cbn [lineChart isViewExtentUpdated] in Hnone, Hv; subst.
  destruct dv, de, du, mu, dvu, ms; run_hooks;
    (split; [split_and!; eauto|]);
    (eexists; split; [reflexivity|]); cbn [received]; unfold viewBoxSent;
    rewrite ?foldl_app; reflexivity.
Qed.

Lemma awaits_fire (hook : Hook) (c : t) :
  awaitsChart c ->
  awaitsChart (fire hook c)
  ∨ settled (fire hook c) ∧ viewBoxInSync (fire hook c).
Proof.
  intros Hc. destruct hook as [ic| |extent| | |]; cbn [fire];
    [|right; by apply awaits_init|..]; left; destruct Hc as [Hnone Hv];
    destruct c as [? ? dv ? ? ? ? ? ? ? ? ? de du mu ? dvu ms];
    cbn [lineChart isViewExtentUpdated] in Hnone, Hv; subst.
  - destruct ic as [[?|] [?|] [?|] [?|] [?|]];
      unfold changesOf, assign;
      cbn [from_option newSeriesData newSeriesMetadataMap
           newDefaultViewExtent newXScaleType newYScaleType];
      repeat match goal with
      | |- context [bool_decide ?P] =>
          let b := eval vm_compute in (bool_decide P) in
          change (bool_decide P) with b
      end;
      run_hooks; by split.
  - run_hooks. by split.
  - run_hooks. by split.
  - run_hooks. by split.
  - run_hooks. by split.
Qed.

Lemma fireAll_app hooks hooks' c :
  fireAll (hooks ++ hooks') c = fireAll hooks' (fireAll hooks c).
Proof. unfold fireAll. by rewrite foldl_app. Qed.

(** *** The calls of covered components return *)

Lemma covered_tell (call : Call) (c : t) : covered (tell call c) = covered c.
Proof. unfold tell. by destruct (lineChart c). Qed.

Lemma tell_defined (call : Call) (c : t) :
  defined call -> receivedDefined c -> receivedDefined (tell call c).
Proof.
  intros Hd Hr h' Hh'. unfold tell in Hh'.
  destruct (lineChart c) as [h|] eqn:Hh.
  - cbn [lineChart set_lineChart] in Hh'. injection Hh' as <-.
    cbn [send received]. apply Forall_app. split; [by apply Hr|].
    by constructor.
  - by rewrite Hh in Hh'.
Qed.

Lemma updateProp_defined (c : t) :
  covered c = true -> receivedDefined c -> receivedDefined (updateProp c).
Proof.
  intros Hc Hr h' Hh'. destruct (lineChart c) as [h|] eqn:Hh.
  - rewrite (updateProp_received c h Hh) in Hh'. injection Hh' as <-.
    cbn [received]. rewrite !Forall_app.
    split_and!; [by apply Hr|..];
      match goal with
      | |- Forall _ (if ?b then _ else _) => destruct b
      end; repeat constructor.
    by apply covered_defined.
  - unfold updateProp in Hh'. rewrite Hh in Hh'. by rewrite Hh in Hh'.
Qed.

(** Assigning a field other than [lineChart] and the two inputs changes
    neither the calls received nor the cover. *)
Ltac keep_defined :=
  repeat first
    [ assumption
    | apply tell_defined; [exact I|]
    | rewrite covered_tell
    | match goal with
      | |- receivedDefined (?f ?v ?c) => change (receivedDefined c)
      | |- covered (?f ?v ?c) = true => change (covered c = true)
      end ].

Lemma ngOnChanges_defined (changes : SimpleChanges.t) (c : t) :
  covered c = true -> receivedDefined c ->
  receivedDefined (ngOnChanges changes c).
Proof.
  intros Hc Hr. destruct changes as [[|] [|] [|] [|] [?|]];
    unfold ngOnChanges;
    cbn [SimpleChanges.xScaleType SimpleChanges.yScaleType
         SimpleChanges.seriesData SimpleChanges.defaultViewExtent
         SimpleChanges.seriesMetadataMap];
    apply updateProp_defined; keep_defined.
Qed.

Lemma fire_defined (hook : Hook) (c : t) :
  covered (match hook with Bound ic => assign ic c | _ => c end) = true ->
  receivedDefined c -> receivedDefined (fire hook c).
Proof.
  intros Hc Hr. destruct hook as [ic| |extent| | |]; cbn [fire].
  - apply ngOnChanges_defined; [done|].
    destruct ic as [[?|] [?|] [?|] [?|] [?|]]; exact Hr.
  - unfold ngAfterViewInit, initializeChart.
    destruct (lineChart c) as [h|] eqn:Hh.
    + by apply updateProp_defined.
    + apply updateProp_defined; [exact Hc|].
      intros h' Hh'. cbn [lineChart set_lineChart] in Hh'.
      injection Hh' as <-. cbn [received]. constructor.
  - unfold onViewExtentChanged. apply updateProp_defined; keep_defined.
  - unfold onViewExtentReset. apply updateProp_defined; keep_defined.
  - unfold onViewResize. destruct (lineChart c) as [h|] eqn:Hh; [|exact Hr].
    apply tell_defined; [exact I|exact Hr].
  - unfold ngOnDestroy. by apply tell_defined.
Qed.

Lemma fireAll_defined (hooks : list Hook) (c : t) :
  coveredThroughout hooks c = true -> receivedDefined c ->
  receivedDefined (fireAll hooks c).
Proof.
  revert c. induction hooks as [|hook hooks IH]; intros c Hc Hr; [done|].
  cbn [coveredThroughout] in Hc. apply andb_true_iff in Hc as [Hc1 Hc2].
  change (fireAll (hook :: hooks) c) with (fireAll hooks (fire hook c)).
  apply IH; [done|]. by apply fire_defined.
Qed.

(** X18.  From [ngAfterViewInit] on, whatever binding passes and events
    come before and after it, as long as every binding pass leaves each
    series with an entry in the metadata map, no call the component makes
    on a [Chart] in the page's thread throws, the component is settled
    after every hook and the last view box it sent to the chart is the view
    extent it holds: the chart never shows another view box than the
    component's. *)
Theorem view_box_stays_in_sync (hooks : list Hook)
    (data : list DataSeries.t) (metadataMap : DataSeriesMetadataMap) :
  AfterViewInit ∈ hooks ->
  coveredThroughout hooks (new data metadataMap) = true ->
  settled (fireAll hooks (new data metadataMap))
  ∧ viewBoxInSync (fireAll hooks (new data metadataMap))
  ∧ ∃ h, lineChart (fireAll hooks (new data metadataMap)) = Some h
      ∧ ∀ s, ∃ s', InProcess.replay (received h) s = Ok s'.
Proof.
  intros Hin Hcov.
  assert (∀ hooks c, awaitsChart c ->
            awaitsChart (fireAll hooks c)
            ∨ settled (fireAll hooks c) ∧ viewBoxInSync (fireAll hooks c))
    as Hany.
  { intros hs c Hc. induction hs as [|hook hs IH] using rev_ind; [by left|].
    rewrite fireAll_snoc. destruct IH as [IH|IH].
    - by apply awaits_fire.
    - right. by apply sync_fire. }
  assert (∀ hooks c, settled c ∧ viewBoxInSync c ->
            settled (fireAll hooks c) ∧ viewBoxInSync (fireAll hooks c))
    as Hkeep.
  { intros hs c Hc. induction hs as [|hook hs IH] using rev_ind; [done|].
    rewrite fireAll_snoc. by apply sync_fire. }
  assert (settled (fireAll hooks (new data metadataMap))
          ∧ viewBoxInSync (fireAll hooks (new data metadataMap)))
    as [Hsettled Hsync].
  { apply list_elem_of_split in Hin as (before & after & ->).
    rewrite fireAll_app.
    change (AfterViewInit :: after) with ([AfterViewInit] ++ after).
    rewrite fireAll_app. apply Hkeep.
    destruct (Hany before (new data metadataMap)) as [Hw|Hs]; [by split|..].
    - by apply awaits_init.
    - by apply (sync_fire AfterViewInit). }
  split_and!; [done..|].
  destruct Hsync as (h & Hh & _). exists h. split; [done|].
  intros s. apply defined_returns.
  by apply (fireAll_defined hooks (new data metadataMap) Hcov).
Qed.

(** *** The calls arriving at a chart in the page's own thread *)

(** X19.  With series ids that name no member of [Object.prototype], and
    a chart under whose [__proto__] nothing was stored, the metadata object
    of [updateProp] makes [Chart.updateMetadata] throw exactly when some
    series of [seriesData] has no entry in the component's metadata map
    while the chart holds one for it, for example a series whose metadata
    was dropped from the map while it stays in the data.  A series that
    never had metadata does not make it throw. *)
Theorem missing_metadata_throws (c : t) (s : Chart.State) :
  plainIds c = true ->
  ChartProps.prototypeKept (Chart.metadataMap (Chart.this s)) ->
  (∃ e, InProcess.receive (CallUpdateMetadata (requiredMetadata c)) s = Throw e)
  ↔ ∃ series,
      series ∈ seriesData c
      ∧ seriesMetadataMap c !! DataSeries.id series = None
      ∧ is_Some (Chart.metadataMap (Chart.this s) !! DataSeries.id series).
Proof.
  intros Hplain _.
  cbn [InProcess.receive]. rewrite ChartExtras.updateMetadataRaw_spec.
  transitivity
    (existsb (ChartProps.throwsOn (Chart.metadataMap (Chart.this s)))
             (map_to_list (requiredMetadata c)) = true).
  { destruct (existsb _ _); split; try done; [by eexists|by intros [? ?]]. }
  rewrite ChartExtras.throwsOn_true. unfold requiredMetadata. split.
  - intros (key & Hkey & Hex).
    rewrite requiredMetadata_foldl in Hkey.
    destruct (decide (key ∈ DataSeries.id <$> seriesData c)) as [Hin|Hout];
      [|by rewrite lookup_empty in Hkey].
    apply list_elem_of_fmap in Hin as (series & -> & Hin).
    exists series. split_and!; [done|by injection Hkey|].
    destruct Hex as [Hex|Hex]; [done|].
    by destruct (plainIds_lookup c series Hplain Hin).
  - intros (series & Hin & Hnone & Hex).
    exists (DataSeries.id series). split; [|by left].
    rewrite requiredMetadata_foldl, decide_True, Hnone; [done|].
    by apply list_elem_of_fmap_2.
Qed.

(** X20.  A scale-type change alone reaches a chart in the page's thread
    as the scale swap followed by the view box, nothing else: replayed on
    any chart the calls do not throw, the coordinator holds the new scale
    and the component's view box, and a redraw is scheduled.  The missing
    [scheduleRedraw] of [setXScaleType] is made up for by the
    [updateViewBox] the component always sends after it. *)
Theorem scale_change_reaches_chart (changes : SimpleChanges.t) (c : t)
    (h : Handle) (s : Chart.State) :
  settled c -> lineChart c = Some h ->
  SimpleChanges.xScaleType changes = true ->
  SimpleChanges.seriesData changes = false ->
  SimpleChanges.seriesMetadataMap changes = None ->
  ∃ sent s',
    lineChart (ngOnChanges changes c)
    = Some {| klass := klass h; params := params h;
              received := received h ++ sent |}
    ∧ head sent = Some (CallSetXScaleType (xScaleType c))
    ∧ last sent = Some (CallUpdateViewBox (viewExtent (ngOnChanges changes c)))
    ∧ InProcess.replay sent s = Ok s'
    ∧ Coordinator.xScale (Chart.coordinator (Chart.this s'))
      = Some (createScale (xScaleType c))
    ∧ Coordinator.viewBoxRect (Chart.coordinator (Chart.this s'))
      = Some (Rect.ofExtent (viewExtent (ngOnChanges changes c)))
    ∧ Chart.shouldRedraw (Chart.this s') = true.
Proof.
  intros (_ & Hdu & Hmu & Hvu & Hdvu & Hms) Hh.
  destruct changes as [sx sy sd sdv sm].
  cbn [SimpleChanges.xScaleType SimpleChanges.seriesData
       SimpleChanges.seriesMetadataMap]. intros -> -> ->.
  destruct c as [? ? [?|] ? ? ? ? ? ? ? ? ? [?|] ? ? ? ? ?];
    cbn [lineChart isDataUpdated isMetadataUpdated isViewExtentUpdated
         isDefaultViewExtentUpdated maybeSetViewExtentToDefault]
      in Hdu, Hmu, Hvu, Hdvu, Hms, Hh;
    subst; destruct h as [k p r];
    destruct s as [[rd [d pd l] co mm cb [|]] n tr];
    destruct sy, sdv; run_hooks; rewrite <- ?app_assoc; cbn [app];
    (eexists; eexists; split; [reflexivity|]);
    cbn; by split_and!.
Qed.
End WithImports.

Lemma updateProp_sends_in_order_witness :
  ∃ h', lineChart (@updateProp Scenario.imports
                     (set_isDataUpdated true Scenario.panned)) = Some h'
    ∧ klass h' = InProcessChart.
Proof.
  edestruct (@updateProp_sends_in_order Scenario.imports
               (set_isDataUpdated true Scenario.panned))
    as (h' & sent & Hh' & Hk & _).
  - vm_compute. reflexivity.
  - intros _. split; vm_compute; reflexivity.
  - exists h'. split; [exact Hh'|]. rewrite Hk. reflexivity.
Defined.

(** The metadata object of a component with the series a and c and
    metadata for a and b: a with its entry, c with [undefined], no b. *)
Lemma requiredMetadata_lookup_witness :
  requiredMetadata
    (set_seriesData [Scenario.seriesA; DataSeries.mk "c" []] Scenario.mounted)
  !! "a" = Some (Some (Scenario.black "a"))
  ∧ requiredMetadata
      (set_seriesData [Scenario.seriesA; DataSeries.mk "c" []] Scenario.mounted)
    !! "c" = Some None
  ∧ requiredMetadata
      (set_seriesData [Scenario.seriesA; DataSeries.mk "c" []] Scenario.mounted)
    !! "b" = None.
Proof.
  split_and!;
    rewrite (@requiredMetadata_lookup
               (set_seriesData [Scenario.seriesA; DataSeries.mk "c" []]
                  Scenario.mounted)) by (vm_compute; reflexivity);
    vm_compute; reflexivity.
Defined.

(** [Scenario.panned] with a data update outstanding: the second
    [updateProp] changes nothing. *)
Lemma updateProp_idempotent_witness :
  @updateProp Scenario.imports
    (@updateProp Scenario.imports (set_isDataUpdated true Scenario.panned))
  = @updateProp Scenario.imports (set_isDataUpdated true Scenario.panned).
Proof.
  apply (@updateProp_idempotent Scenario.imports
           (set_isDataUpdated true Scenario.panned)).
  intros _. vm_compute. reflexivity.
Defined.

(** The metadata of series a is dropped from the map of [Scenario.mounted]
    while the series stays in the data: the idle chart, which holds an
    entry for a, throws. *)
Lemma missing_metadata_throws_witness :
  ∃ e, InProcess.receive
         (CallUpdateMetadata
            (requiredMetadata
               (set_seriesMetadataMap {[ "b" := Scenario.black "b" ]}
                  Scenario.mounted)))
         Scenario.idle
       = Throw e.
Proof.
  apply (proj2 (@missing_metadata_throws
                  (set_seriesMetadataMap {[ "b" := Scenario.black "b" ]}
                     Scenario.mounted)
                  Scenario.idle
                  ltac:(vm_compute; reflexivity)
                  ltac:(vm_compute; reflexivity))).
  exists Scenario.seriesA. split_and!.
  - vm_compute. left.
  - vm_compute. reflexivity.
  - vm_compute. eauto.
Defined.

Lemma initializeChart_once_witness :
  ∃ h, lineChart
         (@initializeChart Scenario.imports
            (@new Scenario.imports [Scenario.seriesA] Scenario.bothBlack))
       = Some h
    ∧ received h = [].
Proof.
  destruct (proj2 (@initializeChart_once Scenario.imports
                     (@new Scenario.imports [Scenario.seriesA]
                        Scenario.bothBlack)))
    as (h & Hh & Hr & _).
  - reflexivity.
  - exists h. by split.
Defined.



(** After [ngOnDestroy] a pan still reaches the chart of
    [Scenario.mounted]. *)
Lemma chart_is_never_replaced_witness :
  ∃ h', lineChart (@fireAll Scenario.imports
                     [Destroy; ViewExtentChanged Scenario.wideBox]
                     Scenario.mounted) = Some h'
    ∧ klass h' = InProcessChart.
Proof.
  edestruct (@chart_is_never_replaced Scenario.imports
               [Destroy; ViewExtentChanged Scenario.wideBox]
               Scenario.mounted) as [sent Hsent].
  - vm_compute. reflexivity.
  - eexists. split; [exact Hsent|]. reflexivity.
Defined.

Lemma view_box_stays_in_sync_witness :
  viewBoxInSync
    (@fireAll Scenario.imports
       [AfterViewInit; ViewExtentChanged Scenario.pannedBox; ViewResize]
       (@new Scenario.imports [Scenario.seriesA] Scenario.bothBlack)).
Proof.
  apply (proj1 (proj2 (@view_box_stays_in_sync Scenario.imports
                  [AfterViewInit; ViewExtentChanged Scenario.pannedBox;
                   ViewResize] [Scenario.seriesA] Scenario.bothBlack
                  ltac:(left) ltac:(vm_compute; reflexivity)))).
Defined.

(** The x scale of [Scenario.panned] changes to LOG10, and the calls arrive
    at the idle chart. *)
Lemma scale_change_reaches_chart_witness :
  ∃ sent s',
    lineChart (@bindXScaleType Scenario.imports LOG10 Scenario.panned)
    = Some {| klass := InProcessChart; params := Scenario.svgOption [];
              received :=
                [CallUpdateMetadata (requiredMetadata Scenario.mounted);
                 CallUpdateData [Scenario.seriesA];
                 CallUpdateViewBox (viewExtent Scenario.mounted);
                 CallUpdateViewBox Scenario.pannedBox] ++ sent |}
    ∧ InProcess.replay sent Scenario.idle = Ok s'
    ∧ Chart.shouldRedraw (Chart.this s') = true.
Proof.
  destruct (@scale_change_reaches_chart Scenario.imports
              (SimpleChanges.mk true false false false None)
              (set_xScaleType LOG10 Scenario.panned)
              {| klass := InProcessChart; params := Scenario.svgOption [];
                 received :=
                   [CallUpdateMetadata (requiredMetadata Scenario.mounted);
                    CallUpdateData [Scenario.seriesA];
                    CallUpdateViewBox (viewExtent Scenario.mounted);
                    CallUpdateViewBox Scenario.pannedBox] |}
              Scenario.idle)
    as (sent & s' & Hsent & _ & _ & Hreplay & _ & _ & Hflag).
  - split_and!; [vm_compute; eauto|reflexivity..].
  - vm_compute. reflexivity.
  - reflexivity.
  - reflexivity.
  - reflexivity.
  - exists sent, s'. split_and!; [exact Hsent|exact Hreplay|exact Hflag].
Defined.

Lemma untracked_change_is_ignored_witness :
  @ngOnChanges Scenario.imports SimpleChanges.none Scenario.mounted
  = Scenario.mounted.
Proof.
  apply (@untracked_change_is_ignored Scenario.imports Scenario.mounted).
  split_and!; [vm_compute; eauto|reflexivity..].
Defined.
End ComponentExtras.
